(** * Scholarship rule engine (LabReport.py): the rule-matching core

    A shallow embedding of [OPS], [DEFAULT_RULES], [evaluate_condition],
    [rule_matches] and [run_rules], and of the two columns of the result
    page, and the properties of the engine proved about them.

    Python values are the ones the program handles: the facts are built
    from numbers and the rules come out of [json.loads], so a value is
    [None], a bool, an int, a float, a str, a list or a dict with string
    keys.  A finite float is represented by the exact rational it denotes
    (comparisons of finite floats, and of floats with ints, are exact in
    Python).  NaN, which [json.loads] accepts and which no comparison
    orders, is a value of its own; it carries the identity of its float
    object, because containers compare their items by identity before
    [==] ([json.loads] gives every NaN the same object).  The two
    infinities are outside the model.  A str is its UTF-8 encoding;
    lengths and iteration count code points.  A dict is an association
    list in insertion order, with distinct keys.

    Python exceptions are explicit: a computation returns [Ok v] or
    [Raise e]. *)

From Stdlib Require Import List String Ascii Bool Arith ZArith QArith Lia.
From Stdlib Require Import Sorted Permutation.
Import ListNotations.

Local Open Scope string_scope.
Local Open Scope list_scope.

(** ** Exceptions *)

Inductive exn : Type :=
| TypeError
| AttributeError
| KeyError
| ValueError
| IndexError.

Inductive result (A : Type) : Type :=
| Ok (a : A)
| Raise (e : exn).

Arguments Ok {A} a.
Arguments Raise {A} e.

Definition bind {A B : Type} (m : result A) (k : A -> result B) : result B :=
  match m with
  | Ok a => k a
  | Raise e => Raise e
  end.

(** [try: m except Exception: h] *)
Definition try_except {A : Type} (m : result A) (h : result A) : result A :=
  match m with
  | Ok a => Ok a
  | Raise _ => h
  end.

Declare Scope py_scope.
Delimit Scope py_scope with py.
Notation "x <- m ;; k" := (bind m (fun x => k))
  (at level 61, m at next level, right associativity) : py_scope.
Local Open Scope py_scope.

Definition returns {A : Type} (m : result A) : Prop := exists a, m = Ok a.

(** ** Values *)

#[warnings="-register-all"] Inductive value : Type :=
| VNone
| VBool (b : bool)
| VInt (z : Z)
| VFloat (q : Q)
| VStr (s : string)
| VList (l : list value)
| VDict (d : list (string * value))
| VNaN (obj : nat).

Definition dict (A : Type) : Type := list (string * A).

Fixpoint lookup {A : Type} (k : string) (d : dict A) : option A :=
  match d with
  | [] => None
  | (k', v) :: d' => if String.eqb k k' then Some v else lookup k d'
  end.

(** The number a value stands for in a comparison: bool is a subclass of
    int, and int and float compare by value.  NaN stands for none. *)
Definition num (v : value) : option Q :=
  match v with
  | VBool b => Some (if b then 1 else 0)%Q
  | VInt z => Some (inject_Z z)
  | VFloat q => Some q
  | _ => None
  end.

Definition is_number (v : value) : bool :=
  match num v with Some _ => true | None => false end.

(** The values of type int, bool and float: a number or NaN. *)
Inductive number : Type :=
| NaN
| Fin (q : Q).

Definition number_of (v : value) : option number :=
  match v with
  | VNaN _ => Some NaN
  | _ => match num v with Some q => Some (Fin q) | None => None end
  end.

(** [x == y] on numbers: NaN equals nothing, itself included. *)
Definition numbers_equal (x y : number) : bool :=
  match x, y with
  | Fin p, Fin q => Qeq_bool p q
  | _, _ => false
  end.

(** How two numbers compare; NaN compares with nothing. *)
Definition compare_numbers (x y : number) : option comparison :=
  match x, y with
  | Fin p, Fin q => Some (p ?= q)%Q
  | _, _ => None
  end.

(** [x is y], where it can differ from [x == y]: on the NaN objects. *)
Definition same_object (x y : value) : bool :=
  match x, y with
  | VNaN i, VNaN j => Nat.eqb i j
  | _, _ => false
  end.

(** [hash(v)] raises TypeError on lists and dicts. *)
Definition hashable (v : value) : bool :=
  match v with
  | VList _ | VDict _ => false
  | _ => true
  end.

(** *** Strings as sequences of code points *)

Definition is_continuation (c : ascii) : bool :=
  let n := nat_of_ascii c in (128 <=? n)%nat && (n <? 192)%nat.

(** [split_chars s] is the pair of the continuation bytes that open [s]
    and the code points after them. *)
Fixpoint split_chars (s : string) : string * list string :=
  match s with
  | EmptyString => (EmptyString, [])
  | String c s' =>
      let (k, acc) := split_chars s' in
      if is_continuation c then (String c k, acc)
      else (EmptyString, String c k :: acc)
  end.

Definition chars (s : string) : list string :=
  let (k, acc) := split_chars s in
  match k with
  | EmptyString => acc
  | _ => k :: acc
  end.

Fixpoint is_substring (t s : string) : bool :=
  String.prefix t s ||
  match s with
  | EmptyString => false
  | String _ s' => is_substring t s'
  end.

(** ** Built-in operations *)

(** [len(v)] *)
Definition py_len (v : value) : result nat :=
  match v with
  | VStr s => Ok (List.length (chars s))
  | VList l => Ok (List.length l)
  | VDict d => Ok (List.length d)
  | _ => Raise TypeError
  end.

(** The items [for x in v] goes through. *)
Definition py_iter (v : value) : result (list value) :=
  match v with
  | VStr s => Ok (map VStr (chars s))
  | VList l => Ok l
  | VDict d => Ok (map (fun kv => VStr (fst kv)) d)
  | _ => Raise TypeError
  end.

(** [k in d] for a dict with string keys: the key is hashed first. *)
Definition py_contains_key {A : Type} (d : dict A) (k : value) : result bool :=
  match k with
  | VList _ | VDict _ => Raise TypeError
  | VStr s => Ok (match lookup s d with Some _ => true | None => false end)
  | _ => Ok false
  end.

(** [d[k]] *)
Definition py_getitem {A : Type} (d : dict A) (k : value) : result A :=
  match k with
  | VList _ | VDict _ => Raise TypeError
  | VStr s => match lookup s d with Some v => Ok v | None => Raise KeyError end
  | _ => Raise KeyError
  end.

(** [v.get(k, dflt)]: only a dict has the method. *)
Definition py_get (v : value) (k : string) (dflt : value) : result value :=
  match v with
  | VDict d => Ok (match lookup k d with Some x => x | None => dflt end)
  | _ => Raise AttributeError
  end.

(** [a == b]: never raises on these values.  The items of two lists and
    the values of two dicts are compared by identity first. *)
Fixpoint py_eq (a b : value) {struct a} : bool :=
  match a, b with
  | VNone, VNone => true
  | VStr s, VStr t => String.eqb s t
  | VList l, VList m =>
      (fix all2 (l m : list value) {struct l} : bool :=
         match l, m with
         | [], [] => true
         | x :: l', y :: m' => (same_object x y || py_eq x y) && all2 l' m'
         | _, _ => false
         end) l m
  | VDict d, VDict e =>
      Nat.eqb (List.length d) (List.length e) &&
      (fix sub (d : list (string * value)) : bool :=
         match d with
         | [] => true
         | (k, v) :: d' =>
             match lookup k e with
             | Some w => same_object v w || py_eq v w
             | None => false
             end && sub d'
         end) d
  | _, _ =>
      match number_of a, number_of b with
      | Some x, Some y => numbers_equal x y
      | _, _ => false
      end
  end.

(** The comparison containers make of their items: [x is y or x == y]. *)
Definition py_eq_item (x y : value) : bool := same_object x y || py_eq x y.

(** The four ordering operators. *)
Inductive ordering : Type := LT | LE | GT | GE.

Definition holds (o : ordering) (c : comparison) : bool :=
  match o, c with
  | LT, Lt => true
  | LE, (Lt | Eq) => true
  | GT, Gt => true
  | GE, (Gt | Eq) => true
  | _, _ => false
  end.

(** [a < b], [a <= b], [a > b], [a >= b]: numbers by value (false when
    one is NaN), strings by code points, lists by their first differing
    items; anything else is a TypeError. *)
Fixpoint py_compare (o : ordering) (a b : value) {struct a} : result bool :=
  match a, b with
  | VStr s, VStr t => Ok (holds o (String.compare s t))
  | VList l, VList m =>
      (fix lex (l m : list value) {struct l} : result bool :=
         match l, m with
         | [], [] => Ok (holds o Eq)
         | [], _ :: _ => Ok (holds o Lt)
         | _ :: _, [] => Ok (holds o Gt)
         | x :: l', y :: m' =>
             if same_object x y || py_eq x y then lex l' m'
             else py_compare o x y
         end) l m
  | _, _ =>
      match number_of a, number_of b with
      | Some x, Some y =>
          Ok (match compare_numbers x y with
              | Some c => holds o c
              | None => false
              end)
      | _, _ => Raise TypeError
      end
  end.

Definition py_lt : value -> value -> result bool := py_compare LT.

(** [a in b] *)
Definition py_in (a b : value) : result bool :=
  match b with
  | VList l => Ok (existsb (py_eq_item a) l)
  | VStr s =>
      match a with
      | VStr t => Ok (is_substring t s)
      | _ => Raise TypeError
      end
  | VDict d => py_contains_key d a
  | _ => Raise TypeError
  end.

Definition py_not_in_key {A : Type} (d : dict A) (k : value) : result bool :=
  b <- py_contains_key d k;; Ok (negb b).

(** [all(f(c) for c in cs)]: stops at the first false item. *)
Fixpoint py_all {A : Type} (f : A -> result bool) (cs : list A) : result bool :=
  match cs with
  | [] => Ok true
  | c :: cs' => b <- f c;; if b then py_all f cs' else Ok false
  end.

(** [[x for x in l if f(x)]]: every item is tested, in order. *)
Fixpoint py_filter {A : Type} (f : A -> result bool) (l : list A) : result (list A) :=
  match l with
  | [] => Ok []
  | x :: l' =>
      b <- f x;;
      rest <- py_filter f l';;
      Ok (if b then x :: rest else rest)
  end.

Fixpoint py_map {A B : Type} (f : A -> result B) (l : list A) : result (list B) :=
  match l with
  | [] => Ok []
  | x :: l' => y <- f x;; ys <- py_map f l';; Ok (y :: ys)
  end.

(** *** [sorted(l, key=f, reverse=True)]

    Python's sort is stable, orders the items by [<] on their keys alone
    and lets an exception of [<] through; with [reverse=True] the items
    come out by descending key and items of equal key keep their order.
    It is modelled by a stable insertion sort on (key, item) pairs.  Which
    pairs of keys get compared differs from CPython's merge sort, which
    shows only when [<] does not order the keys: when it raises on some
    pairs of keys and not on others, or when a key is NaN. *)

Fixpoint insert_desc (kx : value * value) (l : list (value * value))
  : result (list (value * value)) :=
  match l with
  | [] => Ok [kx]
  | ky :: l' =>
      b <- py_lt (fst kx) (fst ky);;
      if b then (r <- insert_desc kx l';; Ok (ky :: r)) else Ok (kx :: l)
  end.

Fixpoint sort_desc (l : list (value * value)) : result (list (value * value)) :=
  match l with
  | [] => Ok []
  | kx :: l' => s <- sort_desc l';; insert_desc kx s
  end.

Definition sorted_reverse (key : value -> result value) (l : list value)
  : result (list value) :=
  keys <- py_map key l;;
  s <- sort_desc (combine keys l);;
  Ok (map snd s).

(** ** The program *)

Definition binop : Type := value -> value -> result bool.

Definition OPS : dict binop :=
  [ ("==", fun a b => Ok (py_eq a b));
    ("!=", fun a b => Ok (negb (py_eq a b)));
    (">", py_compare GT);
    (">=", py_compare GE);
    ("<", py_compare LT);
    ("<=", py_compare LE);
    ("in", fun a b => py_in a b);
    ("not_in", fun a b => r <- py_in a b;; Ok (negb r)) ].

(** The floats written in the catalog, as the doubles they denote. *)
Definition float_3_7 : Q := 4165829655317709 # 1125899906842624.
Definition float_3_3 : Q := 3715469692580659 # 1125899906842624.
Definition float_2_5 : Q := 5 # 2.

Definition action (decision reason : string) : value :=
  VDict [("decision", VStr decision); ("reason", VStr reason)].

Definition rule (name : string) (priority : Z) (conditions : list value)
    (act : value) : value :=
  VDict [("name", VStr name); ("priority", VInt priority);
         ("conditions", VList conditions); ("action", act)].

Definition condition (field op : string) (v : value) : value :=
  VList [VStr field; VStr op; v].

Definition top_merit_rule : value :=
  rule "Top merit candidate" 100
    [ condition "cgpa" ">=" (VFloat float_3_7);
      condition "co_curricular_score" ">=" (VInt 80);
      condition "family_income" "<=" (VInt 8000);
      condition "disciplinary_actions" "==" (VInt 0) ]
    (action "AWARD_FULL"
       "Excellent academic & co-curricular performance, with acceptable need").

Definition partial_rule : value :=
  rule "Good candidate - partial scholarship" 80
    [ condition "cgpa" ">=" (VFloat float_3_3);
      condition "co_curricular_score" ">=" (VInt 60);
      condition "family_income" "<=" (VInt 12000);
      condition "disciplinary_actions" "<=" (VInt 1) ]
    (action "AWARD_PARTIAL"
       "Good academic & involvement record with moderate need").

Definition need_based_rule : value :=
  rule "Need-based review" 70
    [ condition "cgpa" ">=" (VFloat float_2_5);
      condition "family_income" "<=" (VInt 4000) ]
    (action "REVIEW" "High need but borderline academic score").

Definition low_cgpa_rule : value :=
  rule "Low CGPA – not eligible" 95
    [ condition "cgpa" "<" (VFloat float_2_5) ]
    (action "REJECT" "CGPA below minimum scholarship requirement").

Definition disciplinary_rule : value :=
  rule "Serious disciplinary record" 90
    [ condition "disciplinary_actions" ">=" (VInt 2) ]
    (action "REJECT" "Too many disciplinary records").

Definition DEFAULT_RULES : list value :=
  [ top_merit_rule; partial_rule; need_based_rule; low_cgpa_rule;
    disciplinary_rule ].

Definition evaluate_condition (facts : dict value) (cond : value) : result bool :=
  n <- py_len cond;;
  if negb (n =? 3)%nat then Ok false else
  items <- py_iter cond;;
  match items with
  | [field; op; v] =>
      absent <- py_not_in_key facts field;;
      unknown <- (if absent then Ok true else py_not_in_key OPS op);;
      if unknown then Ok false else
      try_except
        (f <- py_getitem OPS op;; a <- py_getitem facts field;; f a v)
        (Ok false)
  | _ => Raise ValueError
  end.

Definition rule_matches (facts : dict value) (r : value) : result bool :=
  conds <- py_get r "conditions" (VList []);;
  cs <- py_iter conds;;
  py_all (evaluate_condition facts) cs.

Definition no_rule_matched : value := action "REVIEW" "No rule matched".
Definition no_action : value := action "REVIEW" "No action".

Definition priority_key (r : value) : result value := py_get r "priority" (VInt 0).

Definition run_rules (facts : dict value) (rules : list value)
  : result (value * list value) :=
  fired <- py_filter (rule_matches facts) rules;;
  match fired with
  | [] => Ok (no_rule_matched, [])
  | _ :: _ =>
      fired_sorted <- sorted_reverse priority_key fired;;
      match fired_sorted with
      | [] => Raise IndexError
      | top :: _ =>
          best <- py_get top "action" no_action;;
          Ok (best, fired_sorted)
      end
  end.

Definition float_3_9 : Q := 8782019273372467 # 2251799813685248.

Definition facts_low_cgpa : dict value :=
  [ ("cgpa", VFloat 2); ("co_curricular_score", VInt 50);
    ("family_income", VInt 3000); ("disciplinary_actions", VInt 0) ].

Definition facts_disciplinary : dict value :=
  [ ("cgpa", VFloat float_3_9); ("co_curricular_score", VInt 90);
    ("family_income", VInt 1000); ("disciplinary_actions", VInt 3) ].

(** ** Vocabulary of the statements *)

(** The priority a rule states, read off the rule itself and not off the
    key the sort computes: its [priority] entry, and 0 for a rule without
    one. *)
Definition priority_of (r : value) : value :=
  match r with
  | VDict d =>
      match lookup "priority" d with
      | Some v => v
      | None => VInt 0
      end
  | _ => VInt 0
  end.

(** That priority as a number, when it is one. *)
Definition prio (r : value) : Q :=
  match num (priority_of r) with
  | Some q => q
  | None => 0
  end.

(** The rule is a dict whose priority is a number: an int, a bool or a
    float other than NaN. *)
Definition numeric_priority (r : value) : bool :=
  match r with
  | VDict _ => is_number (priority_of r)
  | _ => false
  end.

(** A rule fires when [rule_matches] returns [True]. *)
Definition fires (facts : dict value) (r : value) : bool :=
  match rule_matches facts r with
  | Ok b => b
  | Raise _ => false
  end.

Definition same_priority (q : Q) (r : value) : bool := Qeq_bool (prio r) q.

(** Descending priorities. *)
Definition by_priority (r1 r2 : value) : Prop := (prio r2 <= prio r1)%Q.

(** The pairs (key, item) the sort works on, measured by [m]: the key of
    a pair stands for the number [m] gives. *)
Definition keyed (m : value * value -> Q) (kx : value * value) : Prop :=
  num (fst kx) = Some (m kx).

Definition desc (m : value * value -> Q) (a b : value * value) : Prop :=
  (m b <= m a)%Q.

Definition same_key (m : value * value -> Q) (q : Q) (kx : value * value) : bool :=
  Qeq_bool (m kx) q.

(** A condition the evaluator can take apart: a sequence; when it has
    three items, the first two can be hashed. *)
Definition cond_ok (c : value) : bool :=
  match c with
  | VList [f; o; _] => hashable f && hashable o
  | VList _ | VStr _ | VDict _ => true
  | _ => false
  end.

Definition conds_ok (v : value) : bool :=
  match v with
  | VList cs => forallb cond_ok cs
  | VStr _ | VDict _ => true
  | _ => false
  end.

(** A rule the engine can process: a dict whose [conditions], if any, are
    a sequence of such conditions and whose [priority], if any, is a
    number. *)
Definition rule_ok (r : value) : bool :=
  match r with
  | VDict d =>
      conds_ok (match lookup "conditions" d with Some v => v | None => VList [] end)
      && is_number (match lookup "priority" d with Some v => v | None => VInt 0 end)
  | _ => false
  end.

(** [rule_matches] returns on the rule, whatever the answer. *)
Definition decided (facts : dict value) (r : value) : bool :=
  match rule_matches facts r with
  | Ok _ => true
  | Raise _ => false
  end.

(** The rules that fire carry a number as priority. *)
Definition fired_priorities_numeric (facts : dict value) (rules : list value) : bool :=
  forallb (fun r => implb (fires facts r) (numeric_priority r)) rules.

(** ** Inputs of the examples *)

Definition facts_no_match : dict value :=
  [ ("cgpa", VFloat float_3_9); ("co_curricular_score", VInt 95);
    ("family_income", VInt 100000); ("disciplinary_actions", VInt 0) ].

Definition float_3_8 : Q := 4278419646001971 # 1125899906842624.
Definition float_2_7 : Q := 3039929748475085 # 1125899906842624.

Definition facts_top_merit : dict value :=
  [ ("cgpa", VFloat float_3_8); ("co_curricular_score", VInt 85);
    ("family_income", VInt 5000); ("disciplinary_actions", VInt 0) ].

Definition facts_need_based : dict value :=
  [ ("cgpa", VFloat float_2_7); ("co_curricular_score", VInt 10);
    ("family_income", VInt 3500); ("disciplinary_actions", VInt 0) ].

Definition facts_cgpa : dict value := [ ("cgpa", VFloat (7 # 2)) ].

(** [[["cgpa"], ">=", 3]]: the field is a list. *)
Definition list_field_condition : value :=
  VList [VList [VStr "cgpa"]; VStr ">="; VInt 3].

(** [["cgpa", [">="], 3]]: the operator is a list. *)
Definition list_operator_condition : value :=
  VList [VStr "cgpa"; VList [VStr ">="]; VInt 3].

(** [[{"priority": "high"}, {"priority": 1}]] *)
Definition mixed_priority_rules : list value :=
  [ VDict [("priority", VStr "high")]; VDict [("priority", VInt 1)] ].

(** Conditions of the wrong arity, on an unknown field, with an unknown
    operator and with operands that do not compare, in front of the
    catalog. *)
Definition malformed_conditions_rule : value :=
  rule "Malformed" 200
    [ condition "cgpa" ">=" (VStr "high");
      VList [VStr "cgpa"; VStr ">="];
      condition "height" ">=" (VInt 3);
      condition "cgpa" "~" (VInt 3);
      condition "cgpa" "in" (VInt 3) ]
    (action "AWARD_FULL" "never").

Definition rules_with_malformed : list value :=
  malformed_conditions_rule :: VDict [] :: DEFAULT_RULES.

(** Two catch-all rules of priority 5 around one of priority 9. *)
Definition tie_a : dict value := [("name", VStr "a"); ("priority", VInt 5)].
Definition tie_b : dict value :=
  [("name", VStr "b"); ("priority", VInt 9); ("action", VNone)].
Definition tie_c : dict value := [("name", VStr "c"); ("priority", VFloat 5)].

Definition tie_rules : list value := [VDict tie_a; VDict tie_b; VDict tie_c].

Definition empty_action_rules : list value :=
  [ VDict [("conditions", VList []); ("action", VDict [])] ].

(** [[{"priority": 1, ...}, {"priority": NaN, ...}, {"priority": 2, ...}]]:
    three catch-all rules, the middle one with the NaN of [json.loads]. *)
Definition rule_one : value :=
  VDict [("priority", VInt 1); ("action", action "REVIEW" "one")].
Definition rule_nan : value :=
  VDict [("priority", VNaN 0); ("action", action "REVIEW" "nan")].
Definition rule_two : value :=
  VDict [("priority", VInt 2); ("action", action "AWARD_FULL" "two")].

Definition nan_priority_rules : list value := [rule_one; rule_nan; rule_two].

(** No two rules of the list have the same priority. *)
Fixpoint distinct_priorities (l : list value) : bool :=
  match l with
  | [] => true
  | r :: l' =>
      forallb (fun x => negb (Qeq_bool (prio r) (prio x))) l'
      && distinct_priorities l'
  end.

(** [[{"priority": "low"}, {"priority": "high"}]]: priorities that are
    strings. *)
Definition string_priority_rules : list value :=
  [ VDict [("priority", VStr "low")]; VDict [("priority", VStr "high")] ].

(** The ordering that holds exactly when the given one does not. *)
Definition contrary (o : ordering) : ordering :=
  match o with
  | LT => GE
  | GE => LT
  | GT => LE
  | LE => GT
  end.

(** The operator that says the contrary, for each operator of [OPS]. *)
Definition negated (o : string) : option string :=
  if o =? "==" then Some "!="
  else if o =? "!=" then Some "=="
  else if o =? "<" then Some ">="
  else if o =? ">=" then Some "<"
  else if o =? ">" then Some "<="
  else if o =? "<=" then Some ">"
  else if o =? "in" then Some "not_in"
  else if o =? "not_in" then Some "in"
  else None.

(** A rule whose second condition would raise, behind one that is false. *)
Definition shielded_rule : dict value :=
  [ ("conditions",
     VList [ condition "cgpa" ">=" (VInt 4); list_field_condition ]) ].

(** ** The result page

    The two columns the page shows after [run_rules].  The Streamlit calls
    are kept as data: which banner is called and the text in front of the
    reason; the f-strings append [str] of a value, which cannot raise, so
    the value is kept as it is. *)

Inductive banner : Type :=
| Success
| Info
| Error
| Warning.

(** The "Final Decision" column: [st.success], [st.info], [st.error] or
    [st.warning], chosen by the labels the decision contains. *)
Definition final_decision (act : value) : result (banner * string * value) :=
  decision <- py_get act "decision" (VStr "REVIEW");;
  reason <- py_get act "reason" (VStr "-");;
  full <- py_in (VStr "AWARD_FULL") decision;;
  if full then Ok (Success, "FULL SCHOLARSHIP — ", reason) else
  part <- py_in (VStr "AWARD_PARTIAL") decision;;
  if part then Ok (Info, "PARTIAL SCHOLARSHIP — ", reason) else
  rejected <- py_in (VStr "REJECT") decision;;
  if rejected then Ok (Error, "REJECTED — ", reason) else
  Ok (Warning, "REVIEW — ", reason).

(** One entry of the "Matched Rules" column. *)
Record row : Type := {
  row_index : nat;
  row_name : value;
  row_priority : value;
  row_action : value;
  row_conditions : list value
}.

(** [for i, r in enumerate(fired, start=i)]: the entries written for the
    fired rules, or the exception that stops the loop. *)
Fixpoint matched_rules_from (i : nat) (fired : list value) : result (list row) :=
  match fired with
  | [] => Ok []
  | r :: rest =>
      name <- py_get r "name" VNone;;
      priority <- py_get r "priority" VNone;;
      act <- py_get r "action" (VDict []);;
      conds <- py_get r "conditions" (VList []);;
      cs <- py_iter conds;;
      rows <- matched_rules_from (S i) rest;;
      Ok ({| row_index := i; row_name := name; row_priority := priority;
             row_action := act; row_conditions := cs |} :: rows)
  end.

(** The "Matched Rules" column; on an empty list the page only says
    "No rules matched." *)
Definition matched_rules (fired : list value) : result (list row) :=
  matched_rules_from 1 fired.

(** An action the "Final Decision" column can show: a dict whose
    [decision], if any, is a str, a list or a dict. *)
Definition action_ok (a : value) : bool :=
  match a with
  | VDict d =>
      match lookup "decision" d with
      | None | Some (VStr _) | Some (VList _) | Some (VDict _) => true
      | Some _ => false
      end
  | _ => false
  end.

Definition rule_action_ok (r : value) : bool :=
  match r with
  | VDict d =>
      match lookup "action" d with
      | Some a => action_ok a
      | None => true
      end
  | _ => true
  end.

(** The catalog by descending priority. *)
Definition catalog_by_priority : list value :=
  [ top_merit_rule; low_cgpa_rule; disciplinary_rule; partial_rule;
    need_based_rule ].

(** The facts of the top-merit example in another order, with a fact no
    rule asks for. *)
Definition facts_top_merit_shuffled : dict value :=
  [ ("age", VInt 21); ("disciplinary_actions", VInt 0);
    ("family_income", VInt 5000); ("cgpa", VFloat float_3_8);
    ("co_curricular_score", VInt 85) ].

(** ** The result monad *)

Lemma bind_Ok {A B : Type} (m : result A) (k : A -> result B) (b : B) :
  bind m k = Ok b -> exists a, m = Ok a /\ k a = Ok b.
Proof.
  destruct m as [a | e]; simpl; intros H.
  - exists a. split; [reflexivity | exact H].
  - discriminate H.
Qed.

Tactic Notation "inv_bind" hyp(H) "as" ident(a) ident(Ha) :=
  apply bind_Ok in H; destruct H as (a & Ha & H).

(** ** Comparing numbers *)

Lemma py_lt_numbers (a b : value) (p q : Q) :
  num a = Some p -> num b = Some q ->
  py_lt a b = Ok (holds LT (p ?= q)%Q).
Proof.
  unfold py_lt.
  destruct a; simpl; try discriminate; intros Ha;
    destruct b; simpl; try discriminate; intros Hb;
    injection Ha as <-; injection Hb as <-; reflexivity.
Qed.

Lemma holds_LT_true (p q : Q) : holds LT (p ?= q)%Q = true -> (p < q)%Q.
Proof.
  intros H. apply Qlt_alt. destruct (p ?= q)%Q; simpl in H; congruence.
Qed.

Lemma holds_LT_false (p q : Q) : holds LT (p ?= q)%Q = false -> (q <= p)%Q.
Proof.
  intros H. apply Qnot_lt_le. intros Hlt.
  pose proof (proj1 (Qlt_alt p q) Hlt) as E.
  rewrite E in H. discriminate H.
Qed.

(** ** The sort, on keys that are numbers *)

#[local] Arguments holds : simpl never.

Section NumericSort.

(** [m kx] is the number the key of the pair [kx] stands for. *)
Variable m : value * value -> Q.

Lemma insert_desc_returns kx l :
  keyed m kx -> Forall (keyed m) l -> exists r, insert_desc kx l = Ok r.
Proof.
  intros Hk Hl. induction Hl as [| ky l Hy Hl IH]; simpl.
  - eexists; reflexivity.
  - rewrite (py_lt_numbers _ _ _ _ Hk Hy). simpl.
    destruct (holds LT (m kx ?= m ky)%Q).
    + destruct IH as [r ->]. simpl. eexists; reflexivity.
    + eexists; reflexivity.
Qed.

Lemma insert_desc_perm kx l r :
  insert_desc kx l = Ok r -> Permutation r (kx :: l).
Proof.
  revert r. induction l as [| ky l IH]; simpl; intros r H.
  - injection H as <-. apply Permutation_refl.
  - inv_bind H as b Hb. destruct b.
    + inv_bind H as r' Hr'. injection H as <-.
      apply Permutation_trans with (ky :: kx :: l).
      * apply perm_skip, IH, Hr'.
      * apply perm_swap.
    + injection H as <-. apply Permutation_refl.
Qed.

Lemma insert_desc_sorted kx l r :
  keyed m kx -> Forall (keyed m) l -> StronglySorted (desc m) l ->
  insert_desc kx l = Ok r -> StronglySorted (desc m) r.
Proof.
  intros Hk Hl. revert r.
  induction Hl as [| ky l Hy Hl IH]; simpl; intros r Hs H.
  - injection H as <-. constructor; constructor.
  - rewrite (py_lt_numbers _ _ _ _ Hk Hy) in H. simpl in H.
    apply StronglySorted_inv in Hs. destruct Hs as [Hs Hall].
    destruct (holds LT (m kx ?= m ky)%Q) eqn:Hc.
    + inv_bind H as r' Hr'. injection H as <-.
      constructor.
      * apply IH; assumption.
      * apply (Permutation_Forall (Permutation_sym (insert_desc_perm _ _ _ Hr'))).
        constructor; [| exact Hall].
        apply Qlt_le_weak, holds_LT_true, Hc.
    + injection H as <-.
      apply holds_LT_false in Hc.
      constructor.
      * constructor; assumption.
      * constructor; [exact Hc |].
        eapply Forall_impl; [| exact Hall].
        intros z Hz. unfold desc in *. eapply Qle_trans; eassumption.
Qed.

Lemma insert_desc_stable q kx l r :
  keyed m kx -> Forall (keyed m) l ->
  insert_desc kx l = Ok r ->
  filter (same_key m q) r = filter (same_key m q) (kx :: l).
Proof.
  intros Hk Hl. revert r.
  induction Hl as [| ky l Hy Hl IH]; intros r H; simpl in H.
  - injection H as <-. reflexivity.
  - rewrite (py_lt_numbers _ _ _ _ Hk Hy) in H. simpl in H.
    destruct (holds LT (m kx ?= m ky)%Q) eqn:Hc.
    + inv_bind H as r' Hr'. injection H as <-.
      apply holds_LT_true in Hc.
      specialize (IH _ Hr'). simpl in IH |- *. rewrite IH.
      destruct (same_key m q kx) eqn:Ex; [| reflexivity].
      destruct (same_key m q ky) eqn:Ey; [| reflexivity].
      exfalso. unfold same_key in Ex, Ey.
      apply Qeq_bool_iff in Ex. apply Qeq_bool_iff in Ey.
      apply (Qlt_not_eq _ _ Hc). rewrite Ex, Ey. reflexivity.
    + injection H as <-. reflexivity.
Qed.

Lemma sort_desc_numeric l :
  Forall (keyed m) l ->
  exists s, sort_desc l = Ok s /\ Permutation s l /\
            StronglySorted (desc m) s /\
            forall q, filter (same_key m q) s = filter (same_key m q) l.
Proof.
  induction 1 as [| kx l Hk Hl IH]; simpl.
  - exists []. repeat split; constructor.
  - destruct IH as (s & -> & Hp & Hs & Hf). simpl.
    assert (Hks : Forall (keyed m) s)
      by exact (Permutation_Forall (Permutation_sym Hp) Hl).
    destruct (insert_desc_returns kx s Hk Hks) as [r Hr].
    exists r. split; [exact Hr |]. split; [| split].
    + apply Permutation_trans with (kx :: s).
      * apply insert_desc_perm, Hr.
      * apply perm_skip, Hp.
    + eapply insert_desc_sorted; eassumption.
    + intros q. rewrite (insert_desc_stable q kx s r Hk Hks Hr).
      simpl. rewrite Hf. reflexivity.
Qed.

End NumericSort.

(** ** List comprehensions and [all] *)

Lemma py_filter_Ok {A : Type} (f : A -> result bool) (l r : list A) :
  py_filter f l = Ok r ->
  Forall (fun x => returns (f x)) l /\
  r = filter (fun x => match f x with Ok b => b | Raise _ => false end) l.
Proof.
  revert r. induction l as [| x l IH]; simpl; intros r H.
  - injection H as <-. split; constructor.
  - inv_bind H as b Hb. inv_bind H as rest Hrest. injection H as <-.
    destruct (IH _ Hrest) as [Hall ->]. rewrite Hb. split.
    + constructor; [exists b; exact Hb | exact Hall].
    + reflexivity.
Qed.

Lemma py_filter_returns {A : Type} (f : A -> result bool) (l : list A) :
  Forall (fun x => returns (f x)) l ->
  py_filter f l =
  Ok (filter (fun x => match f x with Ok b => b | Raise _ => false end) l).
Proof.
  induction 1 as [| x l [b Hb] Hl IH]; simpl.
  - reflexivity.
  - rewrite Hb, IH. reflexivity.
Qed.

Lemma py_all_returns {A : Type} (f : A -> result bool) (cs : list A) :
  Forall (fun c => returns (f c)) cs -> returns (py_all f cs).
Proof.
  induction 1 as [| c cs [b Hb] Hcs IH]; simpl.
  - exists true. reflexivity.
  - rewrite Hb. simpl. destruct b; [exact IH | exists false; reflexivity].
Qed.

(** ** Sorting rules by priority *)

Lemma numeric_priority_key (r : value) :
  numeric_priority r = true ->
  exists k, priority_key r = Ok k /\ num k = Some (prio r).
Proof.
  destruct r as [| | | | | | d |]; simpl; try discriminate.
  unfold prio, is_number. simpl.
  destruct (num match lookup "priority" d with
                | Some v => v
                | None => VInt 0
                end) as [q |] eqn:E; [| discriminate].
  intros _. eexists. split; [reflexivity | exact E].
Qed.

Lemma priority_keys_numeric (l : list value) :
  Forall (fun r => numeric_priority r = true) l ->
  exists keys,
    py_map priority_key l = Ok keys /\
    Forall (keyed (fun kx => prio (snd kx))) (combine keys l) /\
    map snd (combine keys l) = l.
Proof.
  induction 1 as [| r l Hr Hl IH]; simpl.
  - exists []. repeat split. constructor.
  - destruct (numeric_priority_key r Hr) as (k & -> & Hk).
    destruct IH as (keys & -> & Hkeys & Hsnd). simpl.
    exists (k :: keys). split; [reflexivity |]. split.
    + constructor; [exact Hk | exact Hkeys].
    + simpl. rewrite Hsnd. reflexivity.
Qed.

Lemma StronglySorted_map_snd (l : list (value * value)) :
  StronglySorted (desc (fun kx => prio (snd kx))) l ->
  StronglySorted by_priority (map snd l).
Proof.
  induction 1 as [| kx l Hs IH Hall]; simpl; constructor.
  - exact IH.
  - apply Forall_map. exact Hall.
Qed.

Lemma filter_map_snd (q : Q) (l : list (value * value)) :
  filter (same_priority q) (map snd l) =
  map snd (filter (same_key (fun kx => prio (snd kx)) q) l).
Proof.
  induction l as [| kx l IH]; simpl.
  - reflexivity.
  - unfold same_key at 1, same_priority at 1.
    destruct (Qeq_bool (prio (snd kx)) q); simpl; rewrite IH; reflexivity.
Qed.

Lemma sorted_reverse_numeric (l : list value) :
  Forall (fun r => numeric_priority r = true) l ->
  exists s,
    sorted_reverse priority_key l = Ok s /\
    Permutation s l /\
    StronglySorted by_priority s /\
    forall q, filter (same_priority q) s = filter (same_priority q) l.
Proof.
  intros Hl. unfold sorted_reverse.
  destruct (priority_keys_numeric l Hl) as (keys & -> & Hkeys & Hsnd). simpl.
  destruct (sort_desc_numeric _ _ Hkeys) as (s & -> & Hp & Hs & Hf). simpl.
  exists (map snd s). split; [reflexivity |]. split; [| split].
  - rewrite <- Hsnd. apply Permutation_map, Hp.
  - apply StronglySorted_map_snd, Hs.
  - intros q. rewrite filter_map_snd, Hf, <- filter_map_snd, Hsnd.
    reflexivity.
Qed.

(** ** The evaluator never raises on a condition it can take apart *)

Lemma try_except_returns {A : Type} (m : result A) (a : A) :
  returns (try_except m (Ok a)).
Proof. destruct m as [x | e]; simpl; eexists; reflexivity. Qed.

Lemma py_contains_key_hashable {A : Type} (d : dict A) (k : value) :
  hashable k = true -> returns (py_contains_key d k).
Proof. destruct k; simpl; try discriminate; intros _; eexists; reflexivity. Qed.

Lemma evaluate_condition_triple facts c f o v :
  py_len c = Ok 3%nat -> py_iter c = Ok [f; o; v] ->
  hashable f = true -> hashable o = true ->
  returns (evaluate_condition facts c).
Proof.
  intros Hlen Hit Hf Ho. unfold evaluate_condition, py_not_in_key.
  rewrite Hlen. simpl. rewrite Hit. simpl.
  destruct (py_contains_key_hashable facts f Hf) as [b ->]. simpl.
  destruct b; simpl.
  - destruct (py_contains_key_hashable OPS o Ho) as [b' ->]. simpl.
    destruct b'; simpl.
    + apply try_except_returns.
    + exists false. reflexivity.
  - exists false. reflexivity.
Qed.

Lemma evaluate_condition_short facts c n :
  py_len c = Ok n -> n <> 3%nat -> evaluate_condition facts c = Ok false.
Proof.
  intros Hlen Hn. unfold evaluate_condition. rewrite Hlen. simpl.
  apply Nat.eqb_neq in Hn. rewrite Hn. reflexivity.
Qed.

Lemma three_items {A : Type} (l : list A) :
  List.length l = 3%nat -> exists a b c, l = [a; b; c].
Proof.
  destruct l as [| a [| b [| c [| d l]]]]; simpl; try discriminate.
  intros _. exists a, b, c. reflexivity.
Qed.

Lemma evaluate_condition_keys facts c (keys : list string) :
  py_len c = Ok (List.length keys) -> py_iter c = Ok (map VStr keys) ->
  returns (evaluate_condition facts c).
Proof.
  intros Hlen Hit.
  destruct (Nat.eq_dec (List.length keys) 3) as [E | E].
  - destruct (three_items keys E) as (a & b & k & ->).
    eapply evaluate_condition_triple; [exact Hlen | exact Hit | |]; reflexivity.
  - exists false. eapply evaluate_condition_short; eassumption.
Qed.

Lemma evaluate_condition_returns facts c :
  cond_ok c = true -> returns (evaluate_condition facts c).
Proof.
  destruct c as [| b | z | q | s | l | d | n]; simpl; try discriminate.
  - intros _. apply (evaluate_condition_keys facts (VStr s) (chars s)).
    + simpl. reflexivity.
    + reflexivity.
  - intros H.
    destruct (Nat.eq_dec (List.length l) 3) as [E | E].
    + destruct (three_items l E) as (f & o & v & ->).
      apply andb_prop in H. destruct H as [Hf Ho].
      eapply evaluate_condition_triple; [reflexivity | reflexivity | |]; assumption.
    + exists false. eapply evaluate_condition_short; [reflexivity | exact E].
  - intros _. apply (evaluate_condition_keys facts (VDict d) (map fst d)).
    + simpl. rewrite length_map. reflexivity.
    + simpl. rewrite map_map. reflexivity.
Qed.

Lemma rule_ok_decided facts r : rule_ok r = true -> decided facts r = true.
Proof.
  destruct r as [| | | | | | d |]; simpl; try discriminate.
  intros H. apply andb_prop in H. destruct H as [H _].
  unfold decided, rule_matches. simpl.
  assert (Hall : forall cs, Forall (fun c => cond_ok c = true) cs ->
                 returns (py_all (evaluate_condition facts) cs)).
  { intros cs Hcs. apply py_all_returns.
    eapply Forall_impl; [| exact Hcs].
    intros c Hc. apply evaluate_condition_returns, Hc. }
  destruct (match lookup "conditions" d with Some v => v | None => VList [] end)
    as [| | | | s | cs | e |]; simpl in H |- *; try discriminate.
  - destruct (Hall (map VStr (chars s))) as [b ->]; [| reflexivity].
    apply Forall_map, Forall_forall. reflexivity.
  - destruct (Hall cs) as [b ->]; [| reflexivity].
    apply Forall_forall. apply forallb_forall. exact H.
  - destruct (Hall (map (fun kv => VStr (fst kv)) e)) as [b ->]; [| reflexivity].
    apply Forall_map, Forall_forall. reflexivity.
Qed.

Lemma rule_ok_numeric r : rule_ok r = true -> numeric_priority r = true.
Proof.
  destruct r as [| | | | | | d |]; simpl; try discriminate.
  intros H. apply andb_prop in H. destruct H as [_ H]. exact H.
Qed.

(** ** The engine on rules it can decide *)

Lemma fires_decided facts r : fires facts r = true -> rule_matches facts r = Ok true.
Proof.
  unfold fires. destruct (rule_matches facts r) as [b | e]; intros H.
  - rewrite H. reflexivity.
  - discriminate H.
Qed.

Lemma fired_is_dict facts r : fires facts r = true -> exists d, r = VDict d.
Proof.
  intros H. apply fires_decided in H.
  destruct r as [| | | | | | d |]; try discriminate H.
  exists d. reflexivity.
Qed.

Lemma py_filter_rules facts rules :
  forallb (decided facts) rules = true ->
  py_filter (rule_matches facts) rules = Ok (filter (fires facts) rules).
Proof.
  intros H. apply (py_filter_returns (rule_matches facts)).
  apply Forall_forall. intros r Hr.
  pose proof (proj1 (forallb_forall _ _) H r Hr) as Hd.
  unfold decided in Hd.
  destruct (rule_matches facts r) as [b | e]; [exists b; reflexivity | discriminate Hd].
Qed.

Lemma fired_numeric facts rules :
  fired_priorities_numeric facts rules = true ->
  Forall (fun r => numeric_priority r = true) (filter (fires facts) rules).
Proof.
  intros H. apply Forall_forall. intros r Hr.
  apply filter_In in Hr. destruct Hr as [Hin Hf].
  pose proof (proj1 (forallb_forall _ _) H r Hin) as Hi.
  simpl in Hi. rewrite Hf in Hi. exact Hi.
Qed.

(** What [run_rules] returns, in terms of the rules that fire. *)
Lemma run_rules_numeric facts rules :
  forallb (decided facts) rules = true ->
  fired_priorities_numeric facts rules = true ->
  exists best fired,
    run_rules facts rules = Ok (best, fired) /\
    Permutation fired (filter (fires facts) rules) /\
    StronglySorted by_priority fired /\
    (forall q, filter (same_priority q) fired =
               filter (same_priority q) (filter (fires facts) rules)).
Proof.
  intros Hd Hn. unfold run_rules.
  rewrite (py_filter_rules facts rules Hd). simpl.
  pose proof (fired_numeric facts rules Hn) as Hnum.
  assert (Hdict : Forall (fun r => exists d, r = VDict d) (filter (fires facts) rules)).
  { apply Forall_forall. intros r Hr. apply filter_In in Hr.
    eapply fired_is_dict, Hr. }
  destruct (filter (fires facts) rules) as [| r0 fired0] eqn:E.
  - exists no_rule_matched, []. repeat split; constructor.
  - destruct (sorted_reverse_numeric _ Hnum) as (s & -> & Hp & Hs & Hstab). simpl.
    destruct s as [| top rest].
    + apply Permutation_nil in Hp. discriminate Hp.
    + assert (Htop : exists d, top = VDict d).
      { apply (proj1 (Forall_forall _ _) Hdict).
        apply (Permutation_in _ Hp). left. reflexivity. }
      destruct Htop as [d ->]. simpl.
      eexists _, _. split; [reflexivity |]. repeat split; assumption.
Qed.

(** Whatever [run_rules] returns has the action of its first fired rule. *)
Lemma run_rules_Ok facts rules best fired :
  run_rules facts rules = Ok (best, fired) ->
  match fired with
  | [] => best = no_rule_matched
  | top :: _ => py_get top "action" no_action = Ok best
  end.
Proof.
  unfold run_rules. intros H. inv_bind H as fired0 Hf.
  destruct fired0 as [| r0 l].
  - injection H as <- <-. reflexivity.
  - inv_bind H as s Hs. destruct s as [| top rest]; [discriminate H |].
    inv_bind H as b Hb. injection H as <- <-. exact Hb.
Qed.

Lemma run_rules_fires_some facts rules :
  forallb (decided facts) rules = true ->
  fired_priorities_numeric facts rules = true ->
  existsb (fires facts) rules = true ->
  exists best fired, run_rules facts rules = Ok (best, fired) /\ fired <> [].
Proof.
  intros Hd Hn Hex.
  destruct (run_rules_numeric facts rules Hd Hn) as (best & fired & E & Hp & _).
  exists best, fired. split; [exact E |].
  intros ->. apply Permutation_nil in Hp.
  apply existsb_exists in Hex. destruct Hex as (r & Hin & Hf).
  assert (Hr : In r (filter (fires facts) rules))
    by (apply filter_In; split; assumption).
  rewrite Hp in Hr. exact Hr.
Qed.

(** ** Properties of the engine *)

(** C1, as stated, fails: on the rule list
    [[{"priority": "high"}, {"priority": 1}]] both rules fire and the sort
    compares a str with an int, so [run_rules] raises TypeError instead of
    returning a pair. *)
Lemma run_rules_raises_on_mixed_priorities :
  run_rules [] mixed_priority_rules = Raise TypeError.
Proof. vm_compute. reflexivity. Qed.

(** C1 (amended): for every facts mapping and every list of rules that are
    dicts whose conditions are a sequence of sequences with hashable field
    and operator items and whose priority is a number, [run_rules]
    returns a pair (selected action, fired rules) and does not raise,
    whatever the arity, the fields, the operators and the operands of the
    conditions. *)
Theorem run_rules_total facts rules :
  forallb rule_ok rules = true ->
  exists best fired, run_rules facts rules = Ok (best, fired).
Proof.
  intros H.
  assert (Hd : forallb (decided facts) rules = true).
  { apply forallb_forall. intros r Hr.
    apply rule_ok_decided. exact (proj1 (forallb_forall _ _) H r Hr). }
  assert (Hn : fired_priorities_numeric facts rules = true).
  { apply forallb_forall. intros r Hr.
    rewrite (rule_ok_numeric r (proj1 (forallb_forall _ _) H r Hr)).
    destruct (fires facts r); reflexivity. }
  destruct (run_rules_numeric facts rules Hd Hn) as (best & fired & E & _).
  exists best, fired. exact E.
Qed.

Lemma run_rules_total_witness :
  forallb rule_ok rules_with_malformed = true /\
  exists best fired,
    run_rules facts_low_cgpa rules_with_malformed = Ok (best, fired).
Proof.
  split; [reflexivity |].
  apply (run_rules_total facts_low_cgpa rules_with_malformed). reflexivity.
Defined.

(** C2: when no rule of the list matches the facts, [run_rules] returns
    the action REVIEW / "No rule matched" and an empty list of fired
    rules. *)
Theorem run_rules_no_match facts rules :
  Forall (fun r => rule_matches facts r = Ok false) rules ->
  run_rules facts rules = Ok (no_rule_matched, []).
Proof.
  intros H. unfold run_rules.
  assert (E : py_filter (rule_matches facts) rules = Ok []).
  { induction H as [| r rules Hr Hrules IH]; simpl.
    - reflexivity.
    - rewrite Hr, IH. reflexivity. }
  rewrite E. reflexivity.
Qed.

Lemma run_rules_no_match_witness :
  Forall (fun r => rule_matches facts_no_match r = Ok false) DEFAULT_RULES /\
  run_rules facts_no_match DEFAULT_RULES = Ok (no_rule_matched, []).
Proof.
  assert (H : Forall (fun r => rule_matches facts_no_match r = Ok false)
                DEFAULT_RULES).
  { repeat constructor. }
  split; [exact H |].
  apply (run_rules_no_match facts_no_match DEFAULT_RULES H).
Defined.

(** C3, as stated, fails.  On
    [[{"priority": 1}, {"priority": NaN}, {"priority": 2}]] all three
    rules match and [<] is false on every pair with the NaN, so the sort
    leaves the list as it is (as CPython's does): the fired list returned
    has the rule of priority 1 before the rule of priority 2.  On
    [[{"priority": "high"}, {"priority": 1}]] both rules match and no
    fired list is returned at all. *)
Lemma fired_list_unsorted_with_nan :
  run_rules [] nan_priority_rules =
  Ok (action "REVIEW" "one", [rule_one; rule_nan; rule_two]) /\
  existsb (fires []) nan_priority_rules = true /\
  priority_of rule_one = VInt 1 /\ priority_of rule_two = VInt 2 /\
  ~ StronglySorted by_priority [rule_one; rule_nan; rule_two] /\
  existsb (fires []) mixed_priority_rules = true /\
  run_rules [] mixed_priority_rules = Raise TypeError.
Proof.
  repeat split.
  intros H. apply StronglySorted_inv in H. destruct H as [_ H].
  inversion H as [| ? ? _ H2]; subst.
  inversion H2 as [| ? ? H3 _]; subst.
  revert H3. vm_compute. intros H3. apply H3. reflexivity.
Qed.

(** C3 (amended): when at least one rule matches, [rule_matches] raises on
    no rule of the list and the priorities of the matching rules are
    numbers other than NaN (0 for a rule without one), [run_rules]
    returns as fired rules exactly the rules that match, by descending
    priority, the rules of one priority in the order they have in the
    input list. *)
Theorem run_rules_fired_sorted_stable facts rules :
  forallb (decided facts) rules = true ->
  fired_priorities_numeric facts rules = true ->
  existsb (fires facts) rules = true ->
  exists best fired,
    run_rules facts rules = Ok (best, fired) /\
    fired <> [] /\
    Permutation fired (filter (fires facts) rules) /\
    (forall r, In r fired <-> In r rules /\ rule_matches facts r = Ok true) /\
    StronglySorted by_priority fired /\
    (forall q, filter (same_priority q) fired =
               filter (same_priority q) (filter (fires facts) rules)).
Proof.
  intros Hd Hn Hex.
  destruct (run_rules_numeric facts rules Hd Hn)
    as (best & fired & E & Hp & Hs & Hstab).
  exists best, fired. split; [exact E |].
  split; [| split; [exact Hp | split; [| split; [exact Hs | exact Hstab]]]].
  - intros ->. apply Permutation_nil in Hp.
    apply existsb_exists in Hex. destruct Hex as (r & Hin & Hf).
    assert (Hr : In r (filter (fires facts) rules))
      by (apply filter_In; split; assumption).
    rewrite Hp in Hr. exact Hr.
  - intros r. split.
    + intros Hin. apply (Permutation_in _ Hp) in Hin.
      apply filter_In in Hin. destruct Hin as [Hin Hf].
      split; [exact Hin | apply fires_decided, Hf].
    + intros [Hin Hm]. apply (Permutation_in _ (Permutation_sym Hp)).
      apply filter_In. split; [exact Hin |].
      unfold fires. rewrite Hm. reflexivity.
Qed.

Lemma run_rules_fired_sorted_stable_witness :
  exists best fired,
    run_rules [] tie_rules = Ok (best, fired) /\
    fired <> [] /\
    Permutation fired (filter (fires []) tie_rules) /\
    (forall r, In r fired <-> In r tie_rules /\ rule_matches [] r = Ok true) /\
    StronglySorted by_priority fired /\
    (forall q, filter (same_priority q) fired =
               filter (same_priority q) (filter (fires []) tie_rules)).
Proof.
  apply (run_rules_fired_sorted_stable [] tie_rules); reflexivity.
Defined.

(** C4, as stated, fails.  On
    [[{"priority": 1}, {"priority": NaN}, {"priority": 2}]] all three
    rules fire and the sort leaves them in this order, so [run_rules]
    selects the action of the rule of priority 1, while the first rule of
    the fired list by descending priority is the rule of priority 2,
    with another action. *)
Lemma selected_action_not_highest_with_nan :
  run_rules [] nan_priority_rules =
  Ok (action "REVIEW" "one", [rule_one; rule_nan; rule_two]) /\
  fires [] rule_two = true /\
  priority_of rule_one = VInt 1 /\ priority_of rule_two = VInt 2 /\
  py_get rule_two "action" no_action = Ok (action "AWARD_FULL" "two") /\
  action "REVIEW" "one" <> action "AWARD_FULL" "two".
Proof. repeat split. discriminate. Qed.

(** C4 (amended): with a non-empty fired set, when [rule_matches] raises on
    no rule of the list and the priorities of the matching rules are
    numbers other than NaN, [run_rules] returns the fired rules sorted by
    descending priority, ties in input order, and selects the [action]
    entry of the first of them, or REVIEW / "No action" when that rule
    has no such entry. *)
Theorem run_rules_selects_top_action facts rules :
  forallb (decided facts) rules = true ->
  fired_priorities_numeric facts rules = true ->
  existsb (fires facts) rules = true ->
  exists best d rest,
    run_rules facts rules = Ok (best, VDict d :: rest) /\
    Permutation (VDict d :: rest) (filter (fires facts) rules) /\
    StronglySorted by_priority (VDict d :: rest) /\
    (forall q, filter (same_priority q) (VDict d :: rest) =
               filter (same_priority q) (filter (fires facts) rules)) /\
    best = match lookup "action" d with
           | Some act => act
           | None => no_action
           end.
Proof.
  intros Hd Hn Hex.
  destruct (run_rules_numeric facts rules Hd Hn)
    as (best & fired & E & Hp & Hs & Hstab).
  destruct (run_rules_fires_some facts rules Hd Hn Hex)
    as (best' & fired' & E' & Hne).
  rewrite E in E'. injection E' as <- <-.
  destruct fired as [| top rest]; [contradiction Hne; reflexivity |].
  assert (Hin : In top (filter (fires facts) rules)).
  { apply (Permutation_in _ Hp). left. reflexivity. }
  apply filter_In in Hin. destruct Hin as [_ Hf].
  destruct (fired_is_dict _ _ Hf) as [d ->].
  exists best, d, rest.
  split; [exact E |]. split; [exact Hp |]. split; [exact Hs |].
  split; [exact Hstab |].
  apply run_rules_Ok in E. simpl in E. injection E as <-. reflexivity.
Qed.

Lemma run_rules_selects_top_action_witness :
  exists best d rest,
    run_rules [] tie_rules = Ok (best, VDict d :: rest) /\
    Permutation (VDict d :: rest) (filter (fires []) tie_rules) /\
    StronglySorted by_priority (VDict d :: rest) /\
    (forall q, filter (same_priority q) (VDict d :: rest) =
               filter (same_priority q) (filter (fires []) tie_rules)) /\
    best = match lookup "action" d with
           | Some act => act
           | None => no_action
           end.
Proof.
  apply (run_rules_selects_top_action [] tie_rules); reflexivity.
Defined.

(** On a condition whose field and operator are strings the evaluator is
    fail-closed: false for a field the facts lack, for an operator outside
    the registry and for a predicate that raises. *)
Lemma evaluate_condition_strings facts f o v :
  evaluate_condition facts (VList [VStr f; VStr o; v]) =
  match lookup f facts, lookup o OPS with
  | Some a, Some op => try_except (op a v) (Ok false)
  | _, _ => Ok false
  end.
Proof.
  unfold evaluate_condition, py_not_in_key. cbn -[lookup OPS].
  destruct (lookup f facts) as [a |]; cbn -[lookup OPS]; [| reflexivity].
  destruct (lookup o OPS) as [op |]; reflexivity.
Qed.

Example evaluate_condition_swallows_comparison_error :
  evaluate_condition facts_cgpa (condition "cgpa" ">=" (VStr "high")) = Ok false /\
  evaluate_condition facts_cgpa (condition "cgpa" "in" (VInt 3)) = Ok false /\
  evaluate_condition facts_cgpa (VList [VStr "cgpa"; VStr ">="]) = Ok false /\
  evaluate_condition facts_cgpa (condition "cgpa" ">=" (VInt 3)) = Ok true.
Proof. repeat split. Qed.

(** C5 (the code departs from it): a condition whose field is a list is a
    condition whose field is absent from the facts, and one whose
    operator is a list has an operator outside the registry, yet
    [evaluate_condition] raises TypeError on both instead of returning
    false: the membership tests hash the item, outside the [try]. *)
Theorem evaluate_condition_raises_on_unhashable :
  evaluate_condition facts_cgpa list_field_condition = Raise TypeError /\
  evaluate_condition facts_cgpa list_operator_condition = Raise TypeError.
Proof. split; reflexivity. Qed.

(** C6: a rule whose conditions are the empty list matches any facts. *)
Theorem rule_matches_empty_conditions facts d :
  lookup "conditions" d = Some (VList []) ->
  rule_matches facts (VDict d) = Ok true.
Proof.
  intros H. unfold rule_matches. simpl. rewrite H. reflexivity.
Qed.

Lemma rule_matches_empty_conditions_witness :
  rule_matches facts_low_cgpa
    (VDict [("name", VStr "catch-all"); ("conditions", VList [])]) = Ok true.
Proof.
  apply (rule_matches_empty_conditions facts_low_cgpa
           [("name", VStr "catch-all"); ("conditions", VList [])]).
  reflexivity.
Defined.

(** C9: a rule without a [conditions] key matches any facts, the absent
    entry standing for the empty list. *)
Theorem rule_matches_no_conditions_key facts d :
  lookup "conditions" d = None ->
  rule_matches facts (VDict d) = Ok true.
Proof.
  intros H. unfold rule_matches. simpl. rewrite H. reflexivity.
Qed.

Lemma rule_matches_no_conditions_key_witness :
  rule_matches facts_low_cgpa
    (VDict [("name", VStr "bare"); ("priority", VInt 1)]) = Ok true.
Proof.
  apply (rule_matches_no_conditions_key facts_low_cgpa
           [("name", VStr "bare"); ("priority", VInt 1)]).
  reflexivity.
Defined.



Example run_rules_empty_action :
  run_rules facts_cgpa empty_action_rules = Ok (VDict [], empty_action_rules).
Proof. reflexivity. Qed.

(** ** The catalog on the example applicants *)

Example run_rules_top_merit :
  run_rules facts_top_merit DEFAULT_RULES =
  Ok (action "AWARD_FULL"
        "Excellent academic & co-curricular performance, with acceptable need",
      [top_merit_rule; partial_rule]).
Proof. reflexivity. Qed.

Example run_rules_need_based :
  run_rules facts_need_based DEFAULT_RULES =
  Ok (action "REVIEW" "High need but borderline academic score",
      [need_based_rule]).
Proof. reflexivity. Qed.

(** C7, as stated, fails: with a CGPA of 2.0 the need-based rule, which
    asks for a CGPA of at least 2.5, is not among the fired rules. *)
Lemma low_cgpa_need_based_does_not_fire :
  ~ (exists fired,
       run_rules facts_low_cgpa DEFAULT_RULES =
       Ok (action "REJECT" "CGPA below minimum scholarship requirement", fired) /\
       In low_cgpa_rule fired /\ In need_based_rule fired).
Proof.
  intros (fired & H & _ & Hin).
  assert (E : run_rules facts_low_cgpa DEFAULT_RULES =
              Ok (action "REJECT" "CGPA below minimum scholarship requirement",
                  [low_cgpa_rule])) by reflexivity.
  rewrite E in H. injection H as <-.
  destruct Hin as [Hin | []]. vm_compute in Hin. discriminate Hin.
Qed.

(** C7 (amended): with the default catalog and the facts cgpa 2.0,
    co-curricular score 50, family income 3000 and no disciplinary action,
    [run_rules] selects REJECT with the reason "CGPA below minimum
    scholarship requirement", and the low-CGPA rule of priority 95 is the
    only rule that fires; the need-based rule does not match. *)
Theorem run_rules_low_cgpa :
  run_rules facts_low_cgpa DEFAULT_RULES =
  Ok (action "REJECT" "CGPA below minimum scholarship requirement",
      [low_cgpa_rule]) /\
  rule_matches facts_low_cgpa need_based_rule = Ok false.
Proof. split; reflexivity. Qed.

(** C8, as stated, fails: with a CGPA of 3.9 and an income of 1000 the
    need-based rule fires next to the disciplinary one, so the
    disciplinary rule is not the only fired rule. *)
Lemma disciplinary_is_not_alone :
  run_rules facts_disciplinary DEFAULT_RULES <>
  Ok (action "REJECT" "Too many disciplinary records", [disciplinary_rule]).
Proof. vm_compute. discriminate. Qed.

(** C8 (amended): with the default catalog and the facts cgpa 3.9,
    co-curricular score 90, family income 1000 and 3 disciplinary actions,
    [run_rules] selects REJECT with the reason "Too many disciplinary
    records"; the disciplinary rule (priority 90) and the need-based
    rule (priority 70) fire, in that order, and no other. *)
Theorem run_rules_disciplinary :
  run_rules facts_disciplinary DEFAULT_RULES =
  Ok (action "REJECT" "Too many disciplinary records",
      [disciplinary_rule; need_based_rule]).
Proof. reflexivity. Qed.

(** ** The engine whatever the priorities are *)

Lemma sort_desc_perm l s : sort_desc l = Ok s -> Permutation s l.
Proof.
  revert s. induction l as [| kx l IH]; simpl; intros s H.
  - injection H as <-. constructor.
  - inv_bind H as s0 Hs0.
    apply Permutation_trans with (kx :: s0).
    + apply insert_desc_perm, H.
    + apply perm_skip, IH, Hs0.
Qed.

Lemma py_map_length {A B : Type} (f : A -> result B) l ys :
  py_map f l = Ok ys -> List.length ys = List.length l.
Proof.
  revert ys. induction l as [| x l IH]; simpl; intros ys H.
  - injection H as <-. reflexivity.
  - inv_bind H as y Hy. inv_bind H as ys0 Hys0. injection H as <-.
    simpl. rewrite (IH _ Hys0). reflexivity.
Qed.

Lemma map_snd_combine {A B : Type} (keys : list A) (l : list B) :
  List.length keys = List.length l -> map snd (combine keys l) = l.
Proof.
  revert keys. induction l as [| x l IH]; intros [| k keys]; simpl;
    try discriminate; try reflexivity.
  intros H. injection H as H. rewrite (IH _ H). reflexivity.
Qed.

Lemma sorted_reverse_perm key l s :
  sorted_reverse key l = Ok s -> Permutation s l.
Proof.
  unfold sorted_reverse. intros H.
  inv_bind H as keys Hkeys. inv_bind H as s0 Hs0. injection H as <-.
  rewrite <- (map_snd_combine keys l (py_map_length _ _ _ Hkeys)).
  apply Permutation_map, sort_desc_perm, Hs0.
Qed.

Lemma run_rules_fired_perm facts rules best fired :
  run_rules facts rules = Ok (best, fired) ->
  forallb (decided facts) rules = true /\
  Permutation fired (filter (fires facts) rules).
Proof.
  unfold run_rules. intros H. inv_bind H as fired0 Hf.
  destruct (py_filter_Ok _ _ _ Hf) as [Hall ->].
  split.
  - apply forallb_forall. intros r Hr.
    destruct (proj1 (Forall_forall _ _) Hall r Hr) as [b Hb].
    unfold decided. rewrite Hb. reflexivity.
  - change (fun x => match rule_matches facts x with
                     | Ok b => b
                     | Raise _ => false
                     end) with (fires facts) in H.
    destruct (filter (fires facts) rules) as [| r0 l].
    + injection H as <- <-. constructor.
    + inv_bind H as s Hs. destruct s as [| top rest]; [discriminate H |].
      inv_bind H as b Hb. injection H as <- <-.
      apply sorted_reverse_perm in Hs. exact Hs.
Qed.

(** X1: whenever [run_rules] returns, its fired list is a rearrangement of
    the rules of the input that match, each as many times as in the
    input: none is lost, doubled or made up, whatever the priorities
    are. *)
Theorem run_rules_fired_is_permutation facts rules best fired :
  run_rules facts rules = Ok (best, fired) ->
  Permutation fired (filter (fires facts) rules).
Proof. intros H. apply (run_rules_fired_perm facts rules best fired H). Qed.

Lemma run_rules_fired_is_permutation_witness :
  Permutation string_priority_rules (filter (fires []) string_priority_rules).
Proof.
  apply (run_rules_fired_is_permutation [] string_priority_rules
           (VDict [("decision", VStr "REVIEW"); ("reason", VStr "No action")])
           string_priority_rules).
  reflexivity.
Defined.

Lemma run_rules_best_source facts rules best fired :
  run_rules facts rules = Ok (best, fired) ->
  best = no_rule_matched \/
  best = no_action \/
  exists d, In (VDict d) rules /\
            rule_matches facts (VDict d) = Ok true /\
            lookup "action" d = Some best.
Proof.
  intros H.
  destruct (run_rules_fired_perm _ _ _ _ H) as [_ Hp].
  apply run_rules_Ok in H.
  destruct fired as [| top rest]; [left; exact H |].
  assert (Hin : In top (filter (fires facts) rules)).
  { apply (Permutation_in _ Hp). left. reflexivity. }
  apply filter_In in Hin. destruct Hin as [Hin Hf].
  destruct (fired_is_dict _ _ Hf) as [d ->]. simpl in H.
  destruct (lookup "action" d) as [act |] eqn:E.
  - right. right. exists d. injection H as <-.
    split; [exact Hin |]. split; [apply fires_decided, Hf | exact E].
  - right. left. injection H as <-. reflexivity.
Qed.

(** X2: the action [run_rules] selects is never made up: it is the
    "No rule matched" default, the "No action" default, or the [action]
    entry of a rule of the input list that matches the facts. *)
Theorem run_rules_action_provenance facts rules best fired :
  run_rules facts rules = Ok (best, fired) ->
  best = no_rule_matched \/
  best = no_action \/
  exists d, In (VDict d) rules /\
            rule_matches facts (VDict d) = Ok true /\
            lookup "action" d = Some best.
Proof. exact (run_rules_best_source facts rules best fired). Qed.

Lemma run_rules_action_provenance_witness :
  action "REJECT" "Too many disciplinary records" = no_rule_matched \/
  action "REJECT" "Too many disciplinary records" = no_action \/
  exists d, In (VDict d) DEFAULT_RULES /\
            rule_matches facts_disciplinary (VDict d) = Ok true /\
            lookup "action" d =
            Some (action "REJECT" "Too many disciplinary records").
Proof.
  apply (run_rules_action_provenance facts_disciplinary DEFAULT_RULES
           (action "REJECT" "Too many disciplinary records")
           [disciplinary_rule; need_based_rule]).
  reflexivity.
Defined.

Lemma filter_idem {A : Type} (f : A -> bool) (l : list A) :
  filter f (filter f l) = filter f l.
Proof.
  induction l as [| x l IH]; simpl; [reflexivity |].
  destruct (f x) eqn:E; simpl; [rewrite E, IH; reflexivity | exact IH].
Qed.

(** X3: the rules that do not match play no part: on a list every rule of
    which [rule_matches] decides, [run_rules] gives what it gives on
    the matching rules alone, an exception of the sort included. *)
Theorem run_rules_ignores_non_matching facts rules :
  forallb (decided facts) rules = true ->
  run_rules facts (filter (fires facts) rules) = run_rules facts rules.
Proof.
  intros Hd. unfold run_rules.
  rewrite (py_filter_rules facts rules Hd).
  rewrite py_filter_rules.
  - rewrite filter_idem. reflexivity.
  - apply forallb_forall. intros r Hr. apply filter_In in Hr.
    exact (proj1 (forallb_forall _ _) Hd r (proj1 Hr)).
Qed.

Lemma run_rules_ignores_non_matching_witness :
  run_rules facts_disciplinary (filter (fires facts_disciplinary) DEFAULT_RULES)
  = run_rules facts_disciplinary DEFAULT_RULES.
Proof.
  apply (run_rules_ignores_non_matching facts_disciplinary DEFAULT_RULES).
  reflexivity.
Defined.

(** ** Highest priority first, ties in input order *)

Lemma same_priority_refl r : same_priority (prio r) r = true.
Proof. unfold same_priority. apply Qeq_bool_iff. reflexivity. Qed.

(** X4: the docstring of [run_rules], "highest priority among fired rules
    (ties keep the first encountered)": when the priorities of the
    matching rules are numbers other than NaN, the rule whose action is
    selected has a priority no fired rule exceeds, and among the matching
    rules of that priority it is the first of the input list.  With a NaN
    priority it need not be, as [nan_priority_rules] shows. *)
Theorem run_rules_top_is_first_of_highest facts rules :
  forallb (decided facts) rules = true ->
  fired_priorities_numeric facts rules = true ->
  existsb (fires facts) rules = true ->
  exists best top rest later,
    run_rules facts rules = Ok (best, top :: rest) /\
    py_get top "action" no_action = Ok best /\
    Forall (fun r => (prio r <= prio top)%Q) (filter (fires facts) rules) /\
    filter (same_priority (prio top)) (filter (fires facts) rules)
    = top :: later.
Proof.
  intros Hd Hn Hex.
  destruct (run_rules_numeric facts rules Hd Hn)
    as (best & fired & E & Hp & Hs & Hstab).
  destruct (run_rules_fires_some facts rules Hd Hn Hex)
    as (best' & fired' & E' & Hne).
  rewrite E in E'. injection E' as <- <-.
  destruct fired as [| top rest]; [contradiction Hne; reflexivity |].
  exists best, top, rest,
    (filter (same_priority (prio top)) rest).
  split; [exact E |]. split; [exact (run_rules_Ok _ _ _ _ E) |]. split.
  - apply (Permutation_Forall Hp).
    apply StronglySorted_inv in Hs. destruct Hs as [_ Hall].
    constructor; [apply Qle_refl | exact Hall].
  - rewrite <- Hstab. simpl. rewrite same_priority_refl. reflexivity.
Qed.

Lemma run_rules_top_is_first_of_highest_witness :
  exists best top rest later,
    run_rules [] tie_rules = Ok (best, top :: rest) /\
    py_get top "action" no_action = Ok best /\
    Forall (fun r => (prio r <= prio top)%Q) (filter (fires []) tie_rules) /\
    filter (same_priority (prio top)) (filter (fires []) tie_rules)
    = top :: later.
Proof.
  apply (run_rules_top_is_first_of_highest [] tie_rules); reflexivity.
Defined.

(** ** The order of the rules matters for ties only *)

Lemma sorted_classes_unique s s' :
  StronglySorted by_priority s -> StronglySorted by_priority s' ->
  (forall q, filter (same_priority q) s = filter (same_priority q) s') ->
  s = s'.
Proof.
  intros Hs. revert s'.
  induction Hs as [| a s1 Hs1 IH Ha]; intros s' Hs' Hq.
  - destruct s' as [| b s1']; [reflexivity |].
    specialize (Hq (prio b)). simpl in Hq.
    rewrite same_priority_refl in Hq. discriminate Hq.
  - destruct s' as [| b s1'].
    + specialize (Hq (prio a)). simpl in Hq.
      rewrite same_priority_refl in Hq. discriminate Hq.
    + apply StronglySorted_inv in Hs'. destruct Hs' as [Hs1' Hb].
      assert (Hab : (prio a <= prio b)%Q).
      { pose proof (Hq (prio a)) as H. simpl in H.
        rewrite same_priority_refl in H.
        assert (Hin : In a (filter (same_priority (prio a)) (b :: s1')))
          by (simpl; rewrite <- H; left; reflexivity).
        apply filter_In in Hin. destruct Hin as [[<- | Hin] _].
        - apply Qle_refl.
        - exact (proj1 (Forall_forall _ _) Hb a Hin). }
      assert (Hba : (prio b <= prio a)%Q).
      { pose proof (Hq (prio b)) as H. simpl in H.
        rewrite (same_priority_refl b) in H.
        assert (Hin : In b (filter (same_priority (prio b)) (a :: s1)))
          by (simpl; rewrite H; left; reflexivity).
        apply filter_In in Hin. destruct Hin as [[<- | Hin] _].
        - apply Qle_refl.
        - exact (proj1 (Forall_forall _ _) Ha b Hin). }
      assert (Heq : same_priority (prio a) b = true).
      { apply Qeq_bool_iff. apply Qle_antisym; assumption. }
      assert (E : a = b).
      { pose proof (Hq (prio a)) as H. simpl in H.
        rewrite same_priority_refl, Heq in H. injection H as H _. exact H. }
      subst b. f_equal. apply IH; [exact Hs1' |].
      intros q. specialize (Hq q). simpl in Hq.
      destruct (same_priority q a); [injection Hq as Hq |]; exact Hq.
Qed.

Lemma filter_rearranged {A : Type} (keep : A -> bool) (l1 l2 : list A) :
  Permutation l1 l2 -> Permutation (filter keep l1) (filter keep l2).
Proof.
  intros Hp.
  induction Hp as [| x l l' Hp IH | x y l | l1 l2 l3 H1 IH1 H2 IH2]; simpl.
  - constructor.
  - destruct (keep x); [apply perm_skip |]; exact IH.
  - destruct (keep x), (keep y); try apply Permutation_refl. apply perm_swap.
  - eapply Permutation_trans; eassumption.
Qed.

Lemma Permutation_short {A : Type} (l l' : list A) :
  Permutation l l' -> (List.length l <= 1)%nat -> l = l'.
Proof.
  intros Hp Hlen. destruct l as [| x [| y l]].
  - symmetry. apply Permutation_nil, Hp.
  - symmetry. apply Permutation_length_1_inv, Hp.
  - simpl in Hlen. lia.
Qed.

Lemma distinct_priorities_class l :
  distinct_priorities l = true ->
  forall q, (List.length (filter (same_priority q) l) <= 1)%nat.
Proof.
  induction l as [| r l IH]; simpl; intros H q; [lia |].
  apply andb_prop in H. destruct H as [Hr Hl].
  destruct (same_priority q r) eqn:Er; [| apply IH, Hl].
  assert (E : filter (same_priority q) l = []).
  { destruct (filter (same_priority q) l) as [| x xs] eqn:Ex; [reflexivity |].
    assert (Hin : In x (filter (same_priority q) l))
      by (rewrite Ex; left; reflexivity).
    apply filter_In in Hin. destruct Hin as [Hin Hx].
    pose proof (proj1 (forallb_forall _ _) Hr x Hin) as Hneq.
    simpl in Hneq. apply negb_true_iff in Hneq.
    unfold same_priority in Er, Hx.
    apply Qeq_bool_iff in Er. apply Qeq_bool_iff in Hx.
    assert (Hrx : Qeq_bool (prio r) (prio x) = true).
    { apply Qeq_bool_iff. rewrite Er, Hx. reflexivity. }
    rewrite Hrx in Hneq. discriminate Hneq. }
  rewrite E. simpl. lia.
Qed.

Lemma forallb_Permutation {A : Type} (f : A -> bool) (l l' : list A) :
  Permutation l l' -> forallb f l = true -> forallb f l' = true.
Proof.
  intros Hp H. apply forallb_forall. intros x Hx.
  apply (proj1 (forallb_forall _ _) H).
  apply (Permutation_in _ (Permutation_sym Hp)), Hx.
Qed.

(** X5: when the rules that fire have pairwise different priorities, all
    of them numbers other than NaN, the order of the rule list does not
    matter: [run_rules] returns the same selected action and the same
    fired list on any rearrangement of the rules. *)
Theorem run_rules_order_independent facts rules rules' :
  Permutation rules rules' ->
  forallb (decided facts) rules = true ->
  fired_priorities_numeric facts rules = true ->
  distinct_priorities (filter (fires facts) rules) = true ->
  run_rules facts rules' = run_rules facts rules.
Proof.
  intros Hp Hd Hn Hdist.
  pose proof (forallb_Permutation _ _ _ Hp Hd) as Hd'.
  pose proof (forallb_Permutation _ _ _ Hp Hn) as Hn'.
  destruct (run_rules_numeric facts rules Hd Hn)
    as (best & fired & E & _ & Hs & Hstab).
  destruct (run_rules_numeric facts rules' Hd' Hn')
    as (best' & fired' & E' & _ & Hs' & Hstab').
  assert (Hf : fired' = fired).
  { apply sorted_classes_unique; [exact Hs' | exact Hs |].
    intros q. rewrite Hstab, Hstab'. symmetry.
    apply Permutation_short.
    - apply filter_rearranged, filter_rearranged, Hp.
    - apply distinct_priorities_class, Hdist. }
  subst fired'.
  rewrite E, E'. f_equal. f_equal.
  apply run_rules_Ok in E. apply run_rules_Ok in E'.
  destruct fired as [| top rest]; [congruence |].
  rewrite E in E'. injection E' as <-. reflexivity.
Qed.

Lemma run_rules_order_independent_witness :
  run_rules facts_disciplinary (rev DEFAULT_RULES)
  = run_rules facts_disciplinary DEFAULT_RULES.
Proof.
  apply (run_rules_order_independent facts_disciplinary DEFAULT_RULES
           (rev DEFAULT_RULES)).
  - apply Permutation_rev.
  - reflexivity.
  - reflexivity.
  - reflexivity.
Defined.

(** ** A rule is the conjunction of its conditions *)

Lemma py_all_true {A : Type} (f : A -> result bool) (cs : list A) :
  py_all f cs = Ok true <-> Forall (fun c => f c = Ok true) cs.
Proof.
  induction cs as [| c cs IH]; simpl.
  - split; [constructor | reflexivity].
  - split.
    + intros H. inv_bind H as b Hb. destruct b; [| discriminate H].
      constructor; [exact Hb | apply IH, H].
    + intros H. inversion H as [| ? ? Hc Hcs]; subst.
      rewrite Hc. simpl. apply IH, Hcs.
Qed.

Lemma py_all_first_false {A : Type} (f : A -> result bool) cs1 c cs2 :
  Forall (fun x => f x = Ok true) cs1 -> f c = Ok false ->
  py_all f (cs1 ++ c :: cs2) = Ok false.
Proof.
  induction 1 as [| x cs1 Hx Hcs1 IH]; simpl; intros Hc.
  - rewrite Hc. reflexivity.
  - rewrite Hx. simpl. apply IH, Hc.
Qed.

Lemma rule_matches_iff_all facts d :
  rule_matches facts (VDict d) = Ok true <->
  exists cs,
    py_iter (match lookup "conditions" d with
             | Some v => v
             | None => VList []
             end) = Ok cs /\
    Forall (fun c => evaluate_condition facts c = Ok true) cs.
Proof.
  unfold rule_matches. simpl. split.
  - intros H. inv_bind H as cs Hcs. exists cs.
    split; [exact Hcs | apply py_all_true, H].
  - intros (cs & Hcs & Hall). rewrite Hcs. simpl.
    apply py_all_true, Hall.
Qed.

(** X6: the docstring of [rule_matches], "all conditions must be true
    (AND)": a rule matches exactly when its conditions can be iterated
    and [evaluate_condition] returns true on each of them. *)
Theorem rule_matches_iff_all_conditions facts d :
  rule_matches facts (VDict d) = Ok true <->
  exists cs,
    py_iter (match lookup "conditions" d with
             | Some v => v
             | None => VList []
             end) = Ok cs /\
    Forall (fun c => evaluate_condition facts c = Ok true) cs.
Proof. exact (rule_matches_iff_all facts d). Qed.

(** X7: the conditions are tried in order and the first false one settles
    the rule: what follows it is not evaluated, so that a condition that
    would raise does no harm behind a false one. *)
Theorem rule_matches_stops_at_first_false facts d cs1 c cs2 :
  lookup "conditions" d = Some (VList (cs1 ++ c :: cs2)) ->
  Forall (fun x => evaluate_condition facts x = Ok true) cs1 ->
  evaluate_condition facts c = Ok false ->
  rule_matches facts (VDict d) = Ok false.
Proof.
  intros Hd Hcs1 Hc. unfold rule_matches. simpl. rewrite Hd. simpl.
  apply py_all_first_false; assumption.
Qed.

Lemma rule_matches_stops_at_first_false_witness :
  evaluate_condition facts_cgpa list_field_condition = Raise TypeError /\
  rule_matches facts_cgpa (VDict shielded_rule) = Ok false.
Proof.
  split; [reflexivity |].
  apply (rule_matches_stops_at_first_false facts_cgpa shielded_rule []
           (condition "cgpa" ">=" (VInt 4)) [list_field_condition]).
  - reflexivity.
  - constructor.
  - reflexivity.
Defined.

(** X8: a rule never fires when one of its conditions has not three
    items, names a field the facts lack, or has an operator outside the
    registry, wherever the condition stands in the rule. *)
Theorem rule_with_dead_condition_never_fires facts d cs c :
  lookup "conditions" d = Some (VList cs) ->
  In c cs ->
  (exists l, c = VList l /\ List.length l <> 3%nat) \/
  (exists f op v, c = VList [VStr f; op; v] /\ lookup f facts = None) \/
  (exists f o v, c = VList [VStr f; VStr o; v] /\ lookup o OPS = None) ->
  fires facts (VDict d) = false.
Proof.
  intros Hd Hin Hdead. unfold fires.
  destruct (rule_matches facts (VDict d)) as [[|] |] eqn:E; try reflexivity.
  exfalso.
  apply rule_matches_iff_all in E. destruct E as (cs' & Hcs' & Hall).
  rewrite Hd in Hcs'. simpl in Hcs'. injection Hcs' as <-.
  pose proof (proj1 (Forall_forall _ _) Hall c Hin) as Hc.
  destruct Hdead as [(l & -> & Hl) | [(f & op & v & -> & Hf) | (f & o & v & -> & Ho)]].
  - rewrite (evaluate_condition_short facts (VList l) (List.length l)) in Hc;
      [discriminate Hc | reflexivity | exact Hl].
  - unfold evaluate_condition, py_not_in_key in Hc. simpl in Hc.
    rewrite Hf in Hc. discriminate Hc.
  - rewrite evaluate_condition_strings, Ho in Hc.
    destruct (lookup f facts); discriminate Hc.
Qed.

Lemma rule_with_dead_condition_never_fires_witness :
  fires facts_cgpa
    (VDict [("conditions",
             VList [condition "cgpa" ">=" (VInt 3);
                    condition "height" ">=" (VInt 3)])]) = false.
Proof.
  apply (rule_with_dead_condition_never_fires facts_cgpa _
           [condition "cgpa" ">=" (VInt 3); condition "height" ">=" (VInt 3)]
           (condition "height" ">=" (VInt 3))).
  - reflexivity.
  - right. left. reflexivity.
  - right. left. exists "height", (VStr ">="), (VInt 3).
    split; reflexivity.
Defined.

(** ** An operator and its contrary *)

Lemma holds_contrary o c : holds (contrary o) c = negb (holds o c).
Proof. destruct o, c; reflexivity. Qed.

Ltac contrary_case :=
  let H := fresh "H" in
  intros H; try discriminate H;
  rewrite ?holds_contrary; injection H as H; rewrite ?H; reflexivity.

(** When an ordering holds its contrary does not; with NaN neither does. *)
Lemma py_compare_exclusive o :
  forall a b,
    py_compare o a b = Ok true -> py_compare (contrary o) a b = Ok false.
Proof.
  fix IH 1. intros a b.
  destruct a as [| ba | za | qa | sa | l | da | na];
    destruct b as [| bb | zb | qb | sb | m | db | nb]; simpl;
    try contrary_case.
  revert m. induction l as [| x l IHl]; intros [| y m]; simpl;
    try contrary_case.
  destruct (same_object x y || py_eq x y); [apply IHl | apply IH].
Qed.

Lemma py_compare_numbers o (a b : value) (p q : Q) :
  num a = Some p -> num b = Some q ->
  py_compare o a b = Ok (holds o (p ?= q)%Q).
Proof.
  destruct a; simpl; try discriminate; intros Ha;
    destruct b; simpl; try discriminate; intros Hb;
    injection Ha as <-; injection Hb as <-; reflexivity.
Qed.

Ltac negated_cases H :=
  unfold negated in H;
  repeat match type of H with
         | (if ?o =? ?k then _ else _) = _ =>
             let E := fresh "E" in
             destruct (o =? k) eqn:E;
             [apply String.eqb_eq in E; subst o; injection H as H |]
         end;
  first [discriminate H | subst].

(** X9: a condition and the condition with the contrary operator ([==]
    and [!=], [<] and [>=], [>] and [<=], [in] and [not_in]) on the same
    field and value are never both true. *)
Theorem negated_conditions_exclusive facts f o o' v :
  negated o = Some o' ->
  evaluate_condition facts (condition f o v) = Ok true ->
  evaluate_condition facts (condition f o' v) = Ok false.
Proof.
  intros Hneg. unfold condition. rewrite !evaluate_condition_strings.
  destruct (lookup f facts) as [a |]; [| discriminate].
  negated_cases Hneg; simpl; intros H;
    match type of H with
    | context [py_eq a v] => destruct (py_eq a v); simpl in *; congruence
    | context [py_in a v] =>
        destruct (py_in a v) as [[|] |]; simpl in *; congruence
    | context [py_compare ?o a v] =>
        let E := fresh "E" in
        destruct (py_compare o a v) as [[|] |] eqn:E;
        simpl in H; try discriminate H;
        apply py_compare_exclusive in E; simpl contrary in E;
        rewrite E; reflexivity
    end.
Qed.

Lemma negated_conditions_exclusive_witness :
  evaluate_condition facts_cgpa (condition "cgpa" ">=" (VFloat float_2_5))
  = Ok true /\
  evaluate_condition facts_cgpa (condition "cgpa" "<" (VFloat float_2_5))
  = Ok false.
Proof.
  split; [reflexivity |].
  apply (negated_conditions_exclusive facts_cgpa "cgpa" ">=" "<"
           (VFloat float_2_5)); reflexivity.
Defined.

(** X10: when the fact and the value are numbers (ints, bools, floats
    other than NaN), exactly one of a
    comparison ([==], [!=], [<], [<=], [>], [>=]) and its contrary is
    true: the two conditions return opposite answers.  With a NaN both
    orderings are false, as the example after it shows. *)
Theorem negated_conditions_complementary_on_numbers facts f o o' v a :
  negated o = Some o' ->
  o <> "in" -> o <> "not_in" ->
  lookup f facts = Some a ->
  is_number a = true -> is_number v = true ->
  exists b,
    evaluate_condition facts (condition f o v) = Ok b /\
    evaluate_condition facts (condition f o' v) = Ok (negb b).
Proof.
  intros Hneg Hin Hnin Hf Ha Hv.
  unfold condition. rewrite !evaluate_condition_strings, Hf.
  unfold is_number in Ha, Hv.
  destruct (num a) as [p |] eqn:Ep; [| discriminate Ha].
  destruct (num v) as [q |] eqn:Eq; [| discriminate Hv].
  negated_cases Hneg; try congruence; simpl;
    rewrite ?(py_compare_numbers _ a v p q Ep Eq); simpl;
    eexists; (split; [reflexivity |]);
    rewrite ?negb_involutive;
    try reflexivity;
    change GE with (contrary LT) || change LT with (contrary GE)
    || change LE with (contrary GT) || change GT with (contrary LE);
    rewrite ?holds_contrary, ?negb_involutive; reflexivity.
Qed.

Example nan_fails_both_orderings :
  evaluate_condition facts_cgpa (condition "cgpa" "<" (VNaN 0)) = Ok false /\
  evaluate_condition facts_cgpa (condition "cgpa" ">=" (VNaN 0)) = Ok false.
Proof. split; reflexivity. Qed.

Lemma negated_conditions_complementary_on_numbers_witness :
  exists b,
    evaluate_condition facts_low_cgpa (condition "cgpa" "<" (VFloat float_2_5))
    = Ok b /\
    evaluate_condition facts_low_cgpa (condition "cgpa" ">=" (VFloat float_2_5))
    = Ok (negb b).
Proof.
  apply (negated_conditions_complementary_on_numbers facts_low_cgpa
           "cgpa" "<" ">=" (VFloat float_2_5) (VFloat 2));
    try reflexivity; discriminate.
Defined.

(** ** The default catalog on any facts *)

Lemma decided_fires facts r :
  decided facts r = true -> rule_matches facts r = Ok (fires facts r).
Proof.
  unfold decided, fires.
  destruct (rule_matches facts r) as [b | e]; [reflexivity | discriminate].
Qed.

Lemma catalog_rule_decided facts r :
  In r DEFAULT_RULES -> rule_matches facts r = Ok (fires facts r).
Proof.
  intros Hin. apply decided_fires, rule_ok_decided.
  simpl in Hin.
  destruct Hin as [<- | [<- | [<- | [<- | [<- | []]]]]]; reflexivity.
Qed.

Lemma default_catalog_outcome facts :
  run_rules facts DEFAULT_RULES =
  Ok (if fires facts top_merit_rule then
        action "AWARD_FULL"
          "Excellent academic & co-curricular performance, with acceptable need"
      else if fires facts low_cgpa_rule then
        action "REJECT" "CGPA below minimum scholarship requirement"
      else if fires facts disciplinary_rule then
        action "REJECT" "Too many disciplinary records"
      else if fires facts partial_rule then
        action "AWARD_PARTIAL"
          "Good academic & involvement record with moderate need"
      else if fires facts need_based_rule then
        action "REVIEW" "High need but borderline academic score"
      else no_rule_matched,
      filter (fires facts) catalog_by_priority).
Proof.
  unfold run_rules, DEFAULT_RULES, catalog_by_priority.
  cbn [py_filter filter].
  rewrite (catalog_rule_decided facts top_merit_rule) by (simpl; tauto).
  rewrite (catalog_rule_decided facts partial_rule) by (simpl; tauto).
  rewrite (catalog_rule_decided facts need_based_rule) by (simpl; tauto).
  rewrite (catalog_rule_decided facts low_cgpa_rule) by (simpl; tauto).
  rewrite (catalog_rule_decided facts disciplinary_rule) by (simpl; tauto).
  cbn [bind].
  destruct (fires facts top_merit_rule), (fires facts partial_rule),
    (fires facts need_based_rule), (fires facts low_cgpa_rule),
    (fires facts disciplinary_rule); reflexivity.
Qed.

(** X11: on the default catalog [run_rules] never raises, whatever the
    facts hold, and its answer is read off the rules that fire: the
    action of the first that fires among top merit (100), low CGPA (95),
    disciplinary (90), partial award (80) and need-based review (70),
    "No rule matched" when none does, with the fired rules listed in
    that order. *)
Theorem default_catalog_decision_table facts :
  run_rules facts DEFAULT_RULES =
  Ok (if fires facts top_merit_rule then
        action "AWARD_FULL"
          "Excellent academic & co-curricular performance, with acceptable need"
      else if fires facts low_cgpa_rule then
        action "REJECT" "CGPA below minimum scholarship requirement"
      else if fires facts disciplinary_rule then
        action "REJECT" "Too many disciplinary records"
      else if fires facts partial_rule then
        action "AWARD_PARTIAL"
          "Good academic & involvement record with moderate need"
      else if fires facts need_based_rule then
        action "REVIEW" "High need but borderline academic score"
      else no_rule_matched,
      filter (fires facts) catalog_by_priority).
Proof. exact (default_catalog_outcome facts). Qed.

Lemma numeric_condition facts f o v a p q ord :
  lookup f facts = Some a -> num a = Some p -> num v = Some q ->
  lookup o OPS = Some (py_compare ord) ->
  evaluate_condition facts (condition f o v) = Ok (holds ord (p ?= q)%Q).
Proof.
  intros Hf Ha Hv Ho. unfold condition.
  rewrite evaluate_condition_strings, Hf, Ho.
  rewrite (py_compare_numbers ord a v p q Ha Hv). reflexivity.
Qed.

Lemma first_condition_false facts d c cs :
  lookup "conditions" d = Some (VList (c :: cs)) ->
  evaluate_condition facts c = Ok false ->
  fires facts (VDict d) = false.
Proof.
  intros Hd Hc. unfold fires, rule_matches. simpl.
  rewrite Hd. simpl. rewrite Hc. reflexivity.
Qed.

Lemma Qlt_holds_GE_false (p q r : Q) :
  (p < q)%Q -> (q <= r)%Q -> holds GE (p ?= r)%Q = false.
Proof.
  intros Hpq Hqr.
  rewrite (proj1 (Qlt_alt p r) (Qlt_le_trans _ _ _ Hpq Hqr)). reflexivity.
Qed.

(** X12: with the default catalog, whoever has a CGPA below 2.5 is
    rejected for it, whatever the other facts are (missing or ill-typed
    ones included): the low-CGPA rule fires and no award or review rule
    does. *)
Theorem default_catalog_rejects_low_cgpa facts c q :
  lookup "cgpa" facts = Some c -> num c = Some q -> (q < float_2_5)%Q ->
  exists fired,
    run_rules facts DEFAULT_RULES =
    Ok (action "REJECT" "CGPA below minimum scholarship requirement", fired) /\
    In low_cgpa_rule fired /\
    ~ In top_merit_rule fired /\ ~ In partial_rule fired /\
    ~ In need_based_rule fired.
Proof.
  intros Hc Hq Hlt.
  assert (Htop : fires facts top_merit_rule = false).
  { eapply first_condition_false; [reflexivity |].
    rewrite (numeric_condition facts "cgpa" ">=" _ c q float_3_7 GE Hc Hq)
      by reflexivity.
    f_equal. apply (Qlt_holds_GE_false q float_2_5); [exact Hlt |].
    vm_compute. discriminate. }
  assert (Hpart : fires facts partial_rule = false).
  { eapply first_condition_false; [reflexivity |].
    rewrite (numeric_condition facts "cgpa" ">=" _ c q float_3_3 GE Hc Hq)
      by reflexivity.
    f_equal. apply (Qlt_holds_GE_false q float_2_5); [exact Hlt |].
    vm_compute. discriminate. }
  assert (Hneed : fires facts need_based_rule = false).
  { eapply first_condition_false; [reflexivity |].
    rewrite (numeric_condition facts "cgpa" ">=" _ c q float_2_5 GE Hc Hq)
      by reflexivity.
    f_equal. apply (Qlt_holds_GE_false q float_2_5); [exact Hlt |].
    apply Qle_refl. }
  assert (Hlow : fires facts low_cgpa_rule = true).
  { unfold fires, rule_matches. simpl.
    change (VList [VStr "cgpa"; VStr "<"; VFloat float_2_5])
      with (condition "cgpa" "<" (VFloat float_2_5)).
    rewrite (numeric_condition facts "cgpa" "<" _ c q float_2_5 LT Hc Hq)
      by reflexivity.
    rewrite (proj1 (Qlt_alt q float_2_5) Hlt). reflexivity. }
  rewrite default_catalog_outcome. unfold catalog_by_priority. simpl filter.
  rewrite Htop, Hlow, Hpart, Hneed.
  eexists. split; [reflexivity |]. split; [left; reflexivity |].
  repeat split; intros Hin;
    destruct (fires facts disciplinary_rule); simpl in Hin;
    repeat (destruct Hin as [Hin | Hin]; [discriminate Hin |]);
    exact Hin.
Qed.

Lemma default_catalog_rejects_low_cgpa_witness :
  exists fired,
    run_rules facts_low_cgpa DEFAULT_RULES =
    Ok (action "REJECT" "CGPA below minimum scholarship requirement", fired) /\
    In low_cgpa_rule fired /\
    ~ In top_merit_rule fired /\ ~ In partial_rule fired /\
    ~ In need_based_rule fired.
Proof.
  apply (default_catalog_rejects_low_cgpa facts_low_cgpa (VFloat 2) 2).
  - reflexivity.
  - reflexivity.
  - reflexivity.
Defined.

Lemma py_eq_numbers (a b : value) (p q : Q) :
  num a = Some p -> num b = Some q -> py_eq a b = Qeq_bool p q.
Proof.
  destruct a; simpl; try discriminate; intros Ha;
    destruct b; simpl; try discriminate; intros Hb;
    injection Ha as <-; injection Hb as <-; reflexivity.
Qed.

Lemma false_condition_never_fires facts d cs c :
  lookup "conditions" d = Some (VList cs) -> In c cs ->
  evaluate_condition facts c = Ok false ->
  fires facts (VDict d) = false.
Proof.
  intros Hd Hin Hc. unfold fires.
  destruct (rule_matches facts (VDict d)) as [[|] |] eqn:E; try reflexivity.
  apply rule_matches_iff_all in E. destruct E as (cs' & Hcs' & Hall).
  rewrite Hd in Hcs'. simpl in Hcs'. injection Hcs' as <-.
  rewrite (proj1 (Forall_forall _ _) Hall c Hin) in Hc. discriminate Hc.
Qed.

(** X13: with the default catalog, whoever has two disciplinary actions or
    more gets no award: the decision is REJECT, the disciplinary rule
    fires and neither award rule does, whatever the other facts are. *)
Theorem default_catalog_rejects_disciplinary facts v q :
  lookup "disciplinary_actions" facts = Some v -> num v = Some q ->
  (2 <= q)%Q ->
  exists reason fired,
    run_rules facts DEFAULT_RULES = Ok (action "REJECT" reason, fired) /\
    In disciplinary_rule fired /\
    ~ In top_merit_rule fired /\ ~ In partial_rule fired.
Proof.
  intros Hv Hq Hge.
  assert (Htop : fires facts top_merit_rule = false).
  { eapply (false_condition_never_fires facts _ _
              (condition "disciplinary_actions" "==" (VInt 0)));
      [reflexivity | simpl; tauto |].
    unfold condition. rewrite evaluate_condition_strings, Hv. simpl.
    rewrite (py_eq_numbers v (VInt 0) q 0 Hq eq_refl).
    f_equal. destruct (Qeq_bool q 0) eqn:E; [| reflexivity].
    apply Qeq_bool_iff in E. rewrite E in Hge.
    exfalso. revert Hge. vm_compute. intros H. apply H. reflexivity. }
  assert (Hpart : fires facts partial_rule = false).
  { eapply (false_condition_never_fires facts _ _
              (condition "disciplinary_actions" "<=" (VInt 1)));
      [reflexivity | simpl; tauto |].
    rewrite (numeric_condition facts _ "<=" _ v q 1 LE Hv Hq)
      by reflexivity.
    f_equal.
    assert (Hgt : (1 < q)%Q)
      by (apply Qlt_le_trans with 2%Q; [reflexivity | exact Hge]).
    apply Qgt_alt in Hgt. rewrite Hgt. reflexivity. }
  assert (Hdisc : fires facts disciplinary_rule = true).
  { unfold fires, rule_matches. simpl.
    change (VList [VStr "disciplinary_actions"; VStr ">="; VInt 2])
      with (condition "disciplinary_actions" ">=" (VInt 2)).
    rewrite (numeric_condition facts _ ">=" _ v q 2 GE Hv Hq)
      by reflexivity.
    destruct (q ?= 2)%Q eqn:E; try reflexivity.
    exfalso. apply Qlt_alt in E. exact (Qle_not_lt _ _ Hge E). }
  rewrite default_catalog_outcome. unfold catalog_by_priority. simpl filter.
  rewrite Htop, Hpart, Hdisc.
  destruct (fires facts low_cgpa_rule), (fires facts need_based_rule);
    eexists _, _; (split; [reflexivity |]); simpl;
    (split; [tauto |]);
    split; intros Hin;
    repeat (destruct Hin as [Hin | Hin]; [discriminate Hin |]);
    exact Hin.
Qed.

Lemma default_catalog_rejects_disciplinary_witness :
  exists reason fired,
    run_rules facts_disciplinary DEFAULT_RULES =
    Ok (action "REJECT" reason, fired) /\
    In disciplinary_rule fired /\
    ~ In top_merit_rule fired /\ ~ In partial_rule fired.
Proof.
  apply (default_catalog_rejects_disciplinary facts_disciplinary (VInt 3) 3).
  - reflexivity.
  - reflexivity.
  - vm_compute. discriminate.
Defined.

(** ** The result page *)

Lemma final_decision_returns_iff a :
  (exists b, final_decision a = Ok b) <-> action_ok a = true.
Proof.
  unfold final_decision.
  destruct a as [| b0 | z0 | q0 | s0 | l0 | d | n0]; simpl;
    try (split; [intros [b H]; discriminate H | intros H; discriminate H]).
  destruct (lookup "decision" d) as [[| b | z | q | s | l | e | n] |]; simpl;
    try (split; [intros [b' H]; discriminate H | intros H; discriminate H]);
    (split; [reflexivity | intros _]);
    repeat match goal with
           | |- context [if ?c then _ else _] => destruct c; simpl
           end;
    eexists; reflexivity.
Qed.

(** X14: on the default catalog the "Final Decision" column never raises,
    whatever the facts, and its banner follows the winning rule: success
    when the top-merit rule fires, else error when a reject rule fires,
    else info when the partial-award rule fires, else a warning. *)
Theorem default_catalog_banner facts :
  exists best fired label reason,
    run_rules facts DEFAULT_RULES = Ok (best, fired) /\
    final_decision best =
    Ok (if fires facts top_merit_rule then Success
        else if fires facts low_cgpa_rule || fires facts disciplinary_rule
             then Error
        else if fires facts partial_rule then Info
        else Warning,
        label, reason).
Proof.
  rewrite default_catalog_outcome.
  destruct (fires facts top_merit_rule), (fires facts low_cgpa_rule),
    (fires facts disciplinary_rule), (fires facts partial_rule),
    (fires facts need_based_rule);
    eexists _, _, _, _; (split; [reflexivity |]); reflexivity.
Qed.

(** X15: when every rule of the list has no [action] or a dict whose
    [decision] is absent, a str, a list or a dict, the "Final Decision"
    column never raises on what [run_rules] returns. *)
Theorem final_decision_shows_selected facts rules best fired :
  forallb rule_action_ok rules = true ->
  run_rules facts rules = Ok (best, fired) ->
  exists b, final_decision best = Ok b.
Proof.
  intros Hok H. apply final_decision_returns_iff.
  destruct (run_rules_best_source _ _ _ _ H)
    as [-> | [-> | (d & Hin & _ & Hact)]]; try reflexivity.
  pose proof (proj1 (forallb_forall _ _) Hok _ Hin) as Hr.
  simpl in Hr. rewrite Hact in Hr. exact Hr.
Qed.

Lemma final_decision_shows_selected_witness :
  exists b,
    final_decision (action "REJECT" "Too many disciplinary records") = Ok b.
Proof.
  apply (final_decision_shows_selected facts_disciplinary DEFAULT_RULES
           (action "REJECT" "Too many disciplinary records")
           [disciplinary_rule; need_based_rule]); reflexivity.
Defined.

(** X16: the column raises on an action that is not a dict, and on a
    decision that is [None] or a number: a rule list [run_rules] accepts
    can still break the page, as [{"action": null}] does. *)
Theorem final_decision_raises_iff a :
  (exists e, final_decision a = Raise e) <-> action_ok a = false.
Proof.
  split.
  - intros [e He]. destruct (action_ok a) eqn:E; [| reflexivity].
    apply final_decision_returns_iff in E. destruct E as [b Hb].
    rewrite Hb in He. discriminate He.
  - intros E. destruct (final_decision a) as [b | e] eqn:F.
    + assert (H : action_ok a = true)
        by (apply final_decision_returns_iff; exists b; exact F).
      rewrite H in E. discriminate E.
    + exists e. reflexivity.
Qed.

Lemma displayed_rows (l : list value) :
  Forall (fun r => exists d cs,
            r = VDict d /\
            py_iter (match lookup "conditions" d with
                     | Some v => v
                     | None => VList []
                     end) = Ok cs) l ->
  forall i, exists rows,
    matched_rules_from i l = Ok rows /\
    map row_index rows = seq i (List.length l) /\
    Forall2 (fun r w =>
               py_get r "name" VNone = Ok (row_name w) /\
               py_get r "priority" VNone = Ok (row_priority w) /\
               py_get r "action" (VDict []) = Ok (row_action w)) l rows.
Proof.
  induction 1 as [| r l (d & cs & -> & Hcs) Hl IH]; intros i; simpl.
  - exists []. repeat split; constructor.
  - rewrite Hcs. simpl.
    destruct (IH (S i)) as (rows & -> & Hidx & Hrows). simpl.
    eexists. split; [reflexivity |]. split.
    + simpl. rewrite Hidx. reflexivity.
    + constructor; [| exact Hrows]. simpl. repeat split.
Qed.

(** X17: the "Matched Rules" column never raises on the fired list
    [run_rules] returns: it writes one entry per fired rule, in the order
    of the list, numbered from 1, with the rule's name, priority and
    action ([None], [None] and the empty dict when absent). *)
Theorem matched_rules_shows_fired facts rules best fired :
  run_rules facts rules = Ok (best, fired) ->
  exists rows,
    matched_rules fired = Ok rows /\
    map row_index rows = seq 1 (List.length fired) /\
    Forall2 (fun r w =>
               py_get r "name" VNone = Ok (row_name w) /\
               py_get r "priority" VNone = Ok (row_priority w) /\
               py_get r "action" (VDict []) = Ok (row_action w)) fired rows.
Proof.
  intros H. apply displayed_rows.
  destruct (run_rules_fired_perm _ _ _ _ H) as [_ Hp].
  apply Forall_forall. intros r Hr.
  apply (Permutation_in _ Hp) in Hr. apply filter_In in Hr.
  destruct Hr as [_ Hf].
  destruct (fired_is_dict _ _ Hf) as [d ->].
  apply fires_decided, rule_matches_iff_all in Hf.
  destruct Hf as (cs & Hcs & _). exists d, cs. split; [reflexivity | exact Hcs].
Qed.

Lemma matched_rules_shows_fired_witness :
  exists rows,
    matched_rules [disciplinary_rule; need_based_rule] = Ok rows /\
    map row_index rows = seq 1 2 /\
    Forall2 (fun r w =>
               py_get r "name" VNone = Ok (row_name w) /\
               py_get r "priority" VNone = Ok (row_priority w) /\
               py_get r "action" (VDict []) = Ok (row_action w))
      [disciplinary_rule; need_based_rule] rows.
Proof.
  apply (matched_rules_shows_fired facts_disciplinary DEFAULT_RULES
           (action "REJECT" "Too many disciplinary records")
           [disciplinary_rule; need_based_rule]).
  reflexivity.
Defined.

(** ** Facts a rule does not name *)

Lemma evaluate_condition_field facts facts' f op v :
  lookup f facts = lookup f facts' ->
  evaluate_condition facts (VList [VStr f; op; v]) =
  evaluate_condition facts' (VList [VStr f; op; v]).
Proof.
  intros H. unfold evaluate_condition, py_not_in_key. simpl.
  rewrite H. reflexivity.
Qed.

Lemma py_all_ext {A : Type} (f g : A -> result bool) (cs : list A) :
  Forall (fun c => f c = g c) cs -> py_all f cs = py_all g cs.
Proof.
  induction 1 as [| c cs Hc Hcs IH]; simpl; [reflexivity |].
  rewrite Hc, IH. reflexivity.
Qed.

(** X18: a rule looks at the facts through the fields its conditions name
    and through nothing else: two facts mappings that agree on these
    fields give the same answer, so that other facts, and the order of
    the facts, do not matter. *)
Theorem rule_matches_depends_on_named_fields facts facts' d cs :
  lookup "conditions" d = Some (VList cs) ->
  Forall (fun c => exists f op v,
            c = VList [VStr f; op; v] /\
            lookup f facts = lookup f facts') cs ->
  rule_matches facts (VDict d) = rule_matches facts' (VDict d).
Proof.
  intros Hd Hcs. unfold rule_matches. simpl. rewrite Hd. simpl.
  apply py_all_ext.
  eapply Forall_impl; [| exact Hcs].
  intros c (f & op & v & -> & Hf). apply evaluate_condition_field, Hf.
Qed.

Lemma rule_matches_depends_on_named_fields_witness :
  rule_matches facts_top_merit top_merit_rule =
  rule_matches facts_top_merit_shuffled top_merit_rule.
Proof.
  apply (rule_matches_depends_on_named_fields facts_top_merit
           facts_top_merit_shuffled _
           [ condition "cgpa" ">=" (VFloat float_3_7);
             condition "co_curricular_score" ">=" (VInt 80);
             condition "family_income" "<=" (VInt 8000);
             condition "disciplinary_actions" "==" (VInt 0) ]).
  - reflexivity.
  - repeat constructor; eexists _, _, _; split; reflexivity.
Defined.
